(** * Brain Teaser SMS quiz: session engine and gateway delivery

    A shallow embedding of

    - [server/src/shared/session.ts]                 (the session store),
    - [server/src/modules/quiz/quiz.service.ts]      ([SmsQuizService]),
    - [server/src/shared/sms.ts]                     (the gateway calls),
    - [server/src/modules/quiz/quiz.route.ts]        (the [/sms/incoming] handler),

    followed by the properties of the specification that concern them.

    Modelling conventions.

    - JavaScript objects that are mutated in place (the [QuizSession] held by
      [sessionStore]) live in an explicit object heap; [sessionStore] maps a
      subscriber key to a reference, so aliasing is visible in the model.
    - Counters ([currentQuestionIndex], [currentScore], [aggregateScore]) are
      [nat]: they start at 0, only grow by 1 per answer, and stay far below
      2^53.  Retry settings, HTTP statuses and delays are [Z]; settings
      with a fractional part are not covered.
    - Text is modelled over the 7-bit ASCII alphabet; [trim] and [toUpperCase]
      are the ECMAScript functions restricted to that alphabet.
    - The gateway, [Math.random] and the question table are inputs of the
      model: an adversarial reply per HTTP call, a rational in [0,1) per draw,
      and the list of rows the query returns.
    - Keys of [sessionStore] are subscriber identifiers as the gateway
      sends them; the property names every JavaScript object inherits
      ([__proto__], [constructor], ..) are not covered. *)

From Stdlib Require Import ZArith QArith Qround Lia Ascii String.
From stdpp Require Import base option list strings pretty gmap fin_maps.

Local Open Scope Z_scope.

(* ================================================================== *)
(** ** ECMAScript helpers                                              *)
(* ================================================================== *)

Module Js.

(** What a JavaScript call can end with: a returned value or a thrown one. *)
Inductive Exn :=
| Error (message : string)      (* [new Error(message)] *)
| TypeError.                    (* property access on [undefined]/[null] *)

Inductive Completion (A : Type) :=
| Return (a : A)
| Throw (e : Exn).
Arguments Return {A} a.
Arguments Throw {A} e.

(** [WhiteSpace] and [LineTerminator] code points below 128. *)
Definition isWhiteSpace (c : ascii) : bool :=
  let n := nat_of_ascii c in
  (n =? 32)%nat || ((9 <=? n)%nat && (n <=? 13)%nat).

Fixpoint trimStart (s : string) : string :=
  match s with
  | EmptyString => EmptyString
  | String c s' => if isWhiteSpace c then trimStart s' else s
  end.

Fixpoint trimEnd (s : string) : string :=
  match s with
  | EmptyString => EmptyString
  | String c s' =>
      match trimEnd s' with
      | EmptyString => if isWhiteSpace c then EmptyString else String c EmptyString
      | t => String c t
      end
  end.

(** [String.prototype.trim] *)
Definition trim (s : string) : string := trimEnd (trimStart s).

Definition upperChar (c : ascii) : ascii :=
  let n := nat_of_ascii c in
  if ((97 <=? n)%nat && (n <=? 122)%nat)%bool then ascii_of_nat (n - 32) else c.

(** [String.prototype.toUpperCase] *)
Fixpoint toUpperCase (s : string) : string :=
  match s with
  | EmptyString => EmptyString
  | String c s' => String (upperChar c) (toUpperCase s')
  end.

(** Texts made of white space only. *)
Fixpoint blank (s : string) : bool :=
  match s with
  | EmptyString => true
  | String c s' => isWhiteSpace c && blank s'
  end.

(** The line feed written [\n] in the source. *)
Definition LF : string := String (ascii_of_nat 10) EmptyString.

(** A nullable string inside a template literal: [null] prints as "null". *)
Definition display (v : option string) : string :=
  match v with
  | Some s => s
  | None => "null"
  end.

(** Truthiness of a possibly absent string: absent and "" are falsy. *)
Definition truthy (v : option string) : bool :=
  match v with
  | Some s => negb (String.eqb s "")
  | None => false
  end.

(** [a || b] on possibly absent strings. *)
Definition or_else (a b : option string) : option string :=
  if truthy a then a else b.

(** [Number(process.env.X) || d]: [None] is [NaN] (variable unset or not a
    number); [NaN] and 0 are falsy. *)
Definition number_or (v : option Z) (d : Z) : Z :=
  match v with
  | Some z => if z =? 0 then d else z
  | None => d
  end.

End Js.

(* ================================================================== *)
(** ** shared/session.ts                                               *)
(* ================================================================== *)

Module Session.

Record Question := {
  id : Z;
  text : option string;
  options : list (option string);
  correctAnswer : option string
}.

Record QuizSession := {
  phoneNumber : string;
  currentQuestionIndex : nat;
  questions : list Question;
  currentScore : nat;
  isCompleted : bool;
  aggregateScore : nat
}.

(** References to session objects. *)
Abbreviation ref := nat.

(** The object heap together with the module-level [sessionStore]. *)
Record State := {
  heap : gmap nat QuizSession;
  next : ref;                       (* next unused reference *)
  sessionStore : gmap string nat
}.

(** Module initialisation: [sessionStore = {}]. *)
Definition init : State :=
  {| heap := ∅; next := 0%nat; sessionStore := ∅ |}.

(** [new]: allocate an object literal. *)
Definition alloc (s : QuizSession) (st : State) : ref * State :=
  (next st,
   {| heap := <[next st := s]> (heap st);
      next := S (next st);
      sessionStore := sessionStore st |}).

(** Field writes through a reference. *)
Definition write (r : ref) (s : QuizSession) (st : State) : State :=
  {| heap := <[r := s]> (heap st);
     next := next st;
     sessionStore := sessionStore st |}.

Definition getSession (phoneNumber : string) (st : State) : option ref :=
  sessionStore st !! phoneNumber.

Definition setSession (phoneNumber : string) (session : ref) (st : State) : State :=
  {| heap := heap st;
     next := next st;
     sessionStore := <[phoneNumber := session]> (sessionStore st) |}.

Definition clearSession (phoneNumber : string) (st : State) : State :=
  {| heap := heap st;
     next := next st;
     sessionStore := delete phoneNumber (sessionStore st) |}.

(** The session object a subscriber key currently leads to. *)
Definition session_of (phoneNumber : string) (st : State) : option QuizSession :=
  r ← getSession phoneNumber st; heap st !! r.

End Session.

(* ================================================================== *)
(** ** modules/quiz/quiz.service.ts: [SmsQuizService]                  *)
(* ================================================================== *)

Module Db.

(** A row of the [questions] table; every text column is nullable. *)
Record Row := {
  id : Z;
  question : option string;
  optionA : option string;
  optionB : option string;
  optionC : option string;
  optionD : option string;
  answer : option string
}.

End Db.

Module Quiz.
Import Js Session.

(** [db.select().from(dbQuestions).limit(10)] followed by [rows.map]:
    [table] is the sequence of rows the query would return without the
    limit. *)
Definition getRandomQuestions (table : list Db.Row) : list Question :=
  let rows := take 10 table in
  map (fun q =>
         {| id := Db.id q;
            text := Db.question q;
            options := [Db.optionA q; Db.optionB q; Db.optionC q; Db.optionD q];
            correctAnswer := Db.answer q |}) rows.

(** [SmsQuizService.startQuiz]; the result is [questions[0]], which is
    [undefined] ([None]) for an empty array. *)
Definition startQuiz (table : list Db.Row) (phoneNumber : string) (st : State)
  : option Question * State :=
  let questions := getRandomQuestions table in
  let '(session, st) :=
    alloc {| phoneNumber := phoneNumber;
             currentQuestionIndex := 0;
             questions := questions;
             currentScore := 0;
             isCompleted := false;
             aggregateScore := 0 |} st in
  let st := setSession phoneNumber session st in
  (questions !! 0%nat, st).

(** The object returned by [processAnswer]. *)
Inductive AnswerResult :=
| NoSession (error : string)
| Answered (correct : bool) (nextQuestion : option Question)
           (done : bool) (score : nat) (aggregateScore : nat).

Definition noActiveSession : string :=
  "No active quiz session. Send START to begin.".

(** Field assignments on a session object. *)
Definition set_currentScore (v : nat) (s : QuizSession) : QuizSession :=
  {| phoneNumber := phoneNumber s;
     currentQuestionIndex := currentQuestionIndex s;
     questions := questions s;
     currentScore := v;
     isCompleted := isCompleted s;
     aggregateScore := aggregateScore s |}.

Definition set_currentQuestionIndex (v : nat) (s : QuizSession) : QuizSession :=
  {| phoneNumber := phoneNumber s;
     currentQuestionIndex := v;
     questions := questions s;
     currentScore := currentScore s;
     isCompleted := isCompleted s;
     aggregateScore := aggregateScore s |}.

Definition set_isCompleted (v : bool) (s : QuizSession) : QuizSession :=
  {| phoneNumber := phoneNumber s;
     currentQuestionIndex := currentQuestionIndex s;
     questions := questions s;
     currentScore := currentScore s;
     isCompleted := v;
     aggregateScore := aggregateScore s |}.

Definition set_aggregateScore (v : nat) (s : QuizSession) : QuizSession :=
  {| phoneNumber := phoneNumber s;
     currentQuestionIndex := currentQuestionIndex s;
     questions := questions s;
     currentScore := currentScore s;
     isCompleted := isCompleted s;
     aggregateScore := v |}.

(** [currentQ.correctAnswer.trim().toUpperCase() === answer.trim().toUpperCase()] *)
Definition sameAnswer (correct answer : string) : bool :=
  String.eqb (toUpperCase (trim correct)) (toUpperCase (trim answer)).

(** [SmsQuizService.processAnswer].  The two [TypeError]s are the property
    reads [currentQ.correctAnswer] on an index past the array and
    [.trim()] on a [null] answer column; both happen before any write.
    A stored reference always resolves in a state built by this module. *)
Definition processAnswer (phoneNumber answer : string) (st : State)
  : Completion AnswerResult * State :=
  match getSession phoneNumber st with
  | None => (Return (NoSession noActiveSession), st)
  | Some r =>
    match heap st !! r with
    | None => (Return (NoSession noActiveSession), st)
    | Some session =>
      if isCompleted session then (Return (NoSession noActiveSession), st)
      else
        match questions session !! currentQuestionIndex session with
        | None => (Throw TypeError, st)
        | Some currentQ =>
          match correctAnswer currentQ with
          | None => (Throw TypeError, st)
          | Some expected =>
            let isCorrect := sameAnswer expected answer in
            let session :=
              if isCorrect
              then set_currentScore (currentScore session + 1) session
              else session in
            let session :=
              set_currentQuestionIndex (currentQuestionIndex session + 1) session in
            if (length (questions session) <=? currentQuestionIndex session)%nat
            then
              let session := set_isCompleted true session in
              let session :=
                set_aggregateScore
                  (aggregateScore session + currentScore session) session in
              let st := clearSession phoneNumber (write r session st) in
              (Return (Answered isCorrect None true
                         (currentScore session) (aggregateScore session)), st)
            else
              let st := setSession phoneNumber r (write r session st) in
              (Return (Answered isCorrect
                         (questions session !! currentQuestionIndex session)
                         false
                         (currentScore session) (aggregateScore session)), st)
          end
        end
    end
  end.

End Quiz.

(* ================================================================== *)
(** ** shared/sms.ts                                                   *)
(* ================================================================== *)

Module Sms.
Import Js.

Inductive Plan := DAILY | WEEKLY | MONTHLY.

(** [process.env].  The three retry settings are recorded as the value of
    [Number(process.env.X)] ([None] for [NaN]). *)
Record Env := {
  PISIMOB_BASEURL : option string;
  PISISID : option string;
  PISIPID : option string;
  PISI_RETRY_MAX_ATTEMPTS : option Z;
  PISI_RETRY_BASE_DELAY_MS : option Z;
  PISI_RETRY_MAX_DELAY_MS : option Z
}.

(** The JSON body of a gateway response, as far as the code reads it:
    [success] is [data.success === true]. *)
Record Body := {
  success : bool;
  message : option string;
  error : option string
}.

(** What a [catch] clause reads from the value it caught. *)
Record Caught := {
  status : option Z;             (* [error?.response?.status] *)
  dataMessage : option string;   (* [error?.response?.data?.message] *)
  errorMessage : string          (* [error.message] *)
}.

(** Outcome of one [axios.post]: resolved with [response.data] ([None] when
    the body is empty or otherwise falsy) or rejected. *)
Inductive AxiosResult :=
| Resolved (data : option Body)
| Rejected (e : Caught).

Inductive Payload :=
| SmsPayload (pisisid msisdn to message : string)
| PlanPayload (pisipid msisdn channel : string) (subscriptionPlan : Plan).

(** The generated [trxid] is not recorded: it is built once per call of the
    exported function, before any retry. *)
Record Request := {
  url : string;
  payload : Payload;
  timeout : option Z
}.

Inductive Event :=
| Post (r : Request)
| Sleep (ms : Z).

(** How many gateway calls and random draws happened, and what was
    observable from outside, oldest first. *)
Record Net := {
  calls : nat;
  draws : nat;
  trace : list Event
}.

Definition or_default (a : option string) (d : string) : string :=
  match or_else a (Some d) with
  | Some s => s
  | None => d
  end.

(** [!status || status >= 500 || status === 429 || status === 408] *)
Definition isRetryable (status : option Z) : bool :=
  match status with
  | None => true
  | Some s => (s =? 0) || (500 <=? s) || (s =? 429) || (s =? 408)
  end.

(** [Math.floor(r * 100)] for a draw [r] of [Math.random()]. *)
Definition jitter (r : Q) : Z := Qfloor (r * inject_Z 100).

Section Gateway.
Variable env : Env.
Variable gateway : nat -> AxiosResult.   (* reply to the i-th HTTP call *)
Variable random : nat -> Q.              (* i-th value of [Math.random()] *)

Definition baseUrl : string :=
  or_default (PISIMOB_BASEURL env) "https://api.pisimobile.net".

Definition post (r : Request) (n : Net) : AxiosResult * Net :=
  (gateway (calls n),
   {| calls := S (calls n); draws := draws n; trace := trace n ++ [Post r] |}).

Definition mathRandom (n : Net) : Q * Net :=
  (random (draws n),
   {| calls := calls n; draws := S (draws n); trace := trace n |}).

Definition sleep (ms : Z) (n : Net) : Net :=
  {| calls := calls n; draws := draws n; trace := trace n ++ [Sleep ms] |}.

(** [sendSms]: one request, no timeout, no inspection of the body. *)
Definition sendSms (to message : string) (n : Net)
  : Completion (option Body) * Net :=
  let PISISID := or_default (PISISID env) "247" in
  let payload := SmsPayload PISISID to to message in
  let '(response, n) :=
    post {| url := baseUrl +:+ "/v1/sms/outbound/send";
            payload := payload;
            timeout := None |} n in
  match response with
  | Resolved data => (Return data, n)
  | Rejected error =>
      (Throw (Error (or_default (dataMessage error) (errorMessage error))), n)
  end.

(** One iteration of a retry loop either leaves the function or reaches
    [continue]. *)
Inductive Iteration :=
| Leave (c : Completion Body)
| Continue.

(** *** [subscribeUser] *)
Section Subscribe.
Variables (msisdn : string) (subscriptionPlan : Plan).

Definition subscribe_maxAttempts : Z := number_or (PISI_RETRY_MAX_ATTEMPTS env) 5.
Definition subscribe_baseDelayMs : Z := number_or (PISI_RETRY_BASE_DELAY_MS env) 500.
Definition subscribe_maxDelayMs : Z := number_or (PISI_RETRY_MAX_DELAY_MS env) 5000.

Definition subscribe_computeDelay (attempt : Z) (n : Net) : Z * Net :=
  let exp := Z.min subscribe_maxDelayMs (subscribe_baseDelayMs * 2 ^ (attempt - 1)) in
  let '(r, n) := mathRandom n in
  let jitter := jitter r in
  (exp + jitter, n).

Definition subscribe_request : Request :=
  {| url := baseUrl +:+ "/v1/subscription/outbound/create";
     payload := PlanPayload (or_default (PISIPID env) "287") msisdn "SMS" subscriptionPlan;
     timeout := Some 10000 |}.

(** The [catch] block. *)
Definition subscribe_catch (attempt : Z) (error : Caught) (n : Net)
  : Iteration * Net :=
  let isRetryable := isRetryable (status error) in
  if isRetryable && (attempt <? subscribe_maxAttempts) then
    let '(ms, n) := subscribe_computeDelay attempt n in
    (Continue, sleep ms n)
  else
    let message :=
      or_default (or_else (dataMessage error) (Some (errorMessage error)))
                 "Subscription request failed" in
    (Leave (Throw (Error
       ("Failed to subscribe user after " +:+ pretty attempt +:+ " "
        +:+ (if attempt =? 1 then "attempt" else "attempts") +:+ ": "
        +:+ message))), n).

(** Lines 82-87: the response did not carry [success === true]; the
    [throw] inside [try] lands in the same [catch]. *)
Definition subscribe_nonSuccess (attempt : Z) (data : option Body) (n : Net)
  : Iteration * Net :=
  let nonSuccessMessage :=
    or_default (or_else (data ≫= message) (data ≫= error))
               "Subscription request did not succeed" in
  if attempt <? subscribe_maxAttempts then
    let '(ms, n) := subscribe_computeDelay attempt n in
    (Continue, sleep ms n)
  else
    subscribe_catch attempt
      {| status := None; dataMessage := None;
         errorMessage := nonSuccessMessage |} n.

(** The loop body. *)
Definition subscribe_attempt (attempt : Z) (n : Net) : Iteration * Net :=
  let '(response, n) := post subscribe_request n in
  match response with
  | Resolved (Some data) =>
      if success data then (Leave (Return data), n)
      else subscribe_nonSuccess attempt (Some data) n
  | Resolved None => subscribe_nonSuccess attempt None n
  | Rejected error => subscribe_catch attempt error n
  end.

(** [for (let attempt = 1; attempt <= maxAttempts; attempt++)]: the body
    runs for [attempt = 1, 2, ..] at most [maxAttempts] times, counted
    down by [budget]; the statement after the loop is reached when the
    budget is used up. *)
Fixpoint subscribe_loop (budget : nat) (attempt : Z) (n : Net)
  : Completion Body * Net :=
  match budget with
  | O => (Throw (Error "Unexpected error while subscribing user"), n)
  | S budget =>
      match subscribe_attempt attempt n with
      | (Leave c, n) => (c, n)
      | (Continue, n) => subscribe_loop budget (attempt + 1) n
      end
  end.

Definition subscribeUser (n : Net) : Completion Body * Net :=
  subscribe_loop (Z.to_nat subscribe_maxAttempts) 1 n.

End Subscribe.

(** *** [chargeUser] *)
Section Charge.
Variables (msisdn : string) (subscriptionPlan : Plan).

Definition charge_maxAttempts : Z := number_or (PISI_RETRY_MAX_ATTEMPTS env) 5.
Definition charge_baseDelayMs : Z := number_or (PISI_RETRY_BASE_DELAY_MS env) 500.
Definition charge_maxDelayMs : Z := number_or (PISI_RETRY_MAX_DELAY_MS env) 5000.

Definition charge_computeDelay (attempt : Z) (n : Net) : Z * Net :=
  let exp := Z.min charge_maxDelayMs (charge_baseDelayMs * 2 ^ (attempt - 1)) in
  let '(r, n) := mathRandom n in
  let jitter := jitter r in
  (exp + jitter, n).

Definition charge_request : Request :=
  {| url := baseUrl +:+ "/v1/charge/outbound/create";
     payload := PlanPayload (or_default (PISIPID env) "287") msisdn "SMS" subscriptionPlan;
     timeout := Some 10000 |}.

(** The [catch] block. *)
Definition charge_catch (attempt : Z) (error : Caught) (n : Net)
  : Iteration * Net :=
  let isRetryable := isRetryable (status error) in
  if isRetryable && (attempt <? charge_maxAttempts) then
    let '(ms, n) := charge_computeDelay attempt n in
    (Continue, sleep ms n)
  else
    let message :=
      or_default (or_else (dataMessage error) (Some (errorMessage error)))
                 "Charge request failed" in
    (Leave (Throw (Error
       ("Failed to charge user after " +:+ pretty attempt +:+ " "
        +:+ (if attempt =? 1 then "attempt" else "attempts") +:+ ": "
        +:+ message))), n).

(** Lines 204-209: the response did not carry [success === true]; the
    [throw] inside [try] lands in the same [catch]. *)
Definition charge_nonSuccess (attempt : Z) (data : option Body) (n : Net)
  : Iteration * Net :=
  let nonSuccessMessage :=
    or_default (or_else (data ≫= message) (data ≫= error))
               "Charge request did not succeed" in
  if attempt <? charge_maxAttempts then
    let '(ms, n) := charge_computeDelay attempt n in
    (Continue, sleep ms n)
  else
    charge_catch attempt
      {| status := None; dataMessage := None;
         errorMessage := nonSuccessMessage |} n.

(** The loop body. *)
Definition charge_attempt (attempt : Z) (n : Net) : Iteration * Net :=
  let '(response, n) := post charge_request n in
  match response with
  | Resolved (Some data) =>
      if success data then (Leave (Return data), n)
      else charge_nonSuccess attempt (Some data) n
  | Resolved None => charge_nonSuccess attempt None n
  | Rejected error => charge_catch attempt error n
  end.

(** [for (let attempt = 1; attempt <= maxAttempts; attempt++)]: the body
    runs for [attempt = 1, 2, ..] at most [maxAttempts] times, counted
    down by [budget]; the statement after the loop is reached when the
    budget is used up. *)
Fixpoint charge_loop (budget : nat) (attempt : Z) (n : Net)
  : Completion Body * Net :=
  match budget with
  | O => (Throw (Error "Unexpected error while charging user"), n)
  | S budget =>
      match charge_attempt attempt n with
      | (Leave c, n) => (c, n)
      | (Continue, n) => charge_loop budget (attempt + 1) n
      end
  end.

Definition chargeUser (n : Net) : Completion Body * Net :=
  charge_loop (Z.to_nat charge_maxAttempts) 1 n.

End Charge.

End Gateway.

End Sms.

(* ================================================================== *)
(** ** The Delivery Executor of the specification                      *)
(* ================================================================== *)

(** This module is written from the specification (section 4.4), not from
    the source: a single executor, parameterised by the action kind, with the
    state machine

      Attempt(n) -> Success
      Attempt(n) -> RetryableFailure -> sleep(delay(n)) -> Attempt(n+1)
      Attempt(n) -> TerminalFailure -> Failed
      Attempt(maxAttempts) -> RetryableFailure -> Failed

    It is compared below with [Sms.subscribeUser], [Sms.chargeUser] and
    [Sms.sendSms]. *)

Module Executor.
Import Js Sms.

(** What distinguishes one action kind from another: the request (target
    endpoint and payload) and the wording of its failures. *)
Record Kind := {
  request : Request;
  failedAfter : string;        (* opens the text of an exhausted or terminal failure *)
  failedDefault : string;      (* used when a rejection carries no message *)
  nonSuccessDefault : string;  (* used when a response carries no message *)
  unexpected : string          (* raised when no attempt is allowed at all *)
}.

Record Config := {
  maxAttempts : Z;
  baseDelay : Z;
  maxDelay : Z
}.

Inductive Verdict :=
| Success (data : Body)
| RetryableFailure (lastMessage : string)
| TerminalFailure (lastMessage : string).

Inductive Outcome :=
| Delivered (data : Body) (attempts : Z)
| DeliveryFailed (attempts : Z) (lastMessage : string)
| NotAttempted.

(** Success needs the explicit indicator; network errors, a missing
    status, 5xx, 429 and 408 are retryable; the rest is terminal. *)
Definition classify (k : Kind) (r : AxiosResult) : Verdict :=
  match r with
  | Resolved (Some data) =>
      if success data then Success data
      else RetryableFailure
             (or_default (or_else (message data) (error data)) (nonSuccessDefault k))
  | Resolved None => RetryableFailure (nonSuccessDefault k)
  | Rejected e =>
      let m := or_default (or_else (dataMessage e) (Some (errorMessage e)))
                          (failedDefault k) in
      if isRetryable (status e) then RetryableFailure m else TerminalFailure m
  end.

(** [delay(n) = min(maxDelay, baseDelay * 2^(n-1)) + jitter] *)
Definition delay (c : Config) (n : Z) (draw : Q) : Z :=
  Z.min (maxDelay c) (baseDelay c * 2 ^ (n - 1)) + jitter draw.

Section Execute.
Variable gateway : nat -> AxiosResult.
Variable random : nat -> Q.
Variable c : Config.
Variable k : Kind.

Fixpoint attemptFrom (budget : nat) (n : Z) (net : Net) : Outcome * Net :=
  match budget with
  | O => (NotAttempted, net)
  | S budget =>
      let '(r, net) := post gateway (request k) net in
      match classify k r with
      | Success data => (Delivered data n, net)
      | TerminalFailure m => (DeliveryFailed n m, net)
      | RetryableFailure m =>
          if n <? maxAttempts c then
            let '(draw, net) := mathRandom random net in
            attemptFrom budget (n + 1) (sleep (delay c n draw) net)
          else (DeliveryFailed n m, net)
      end
  end.

Definition execute (net : Net) : Outcome * Net :=
  attemptFrom (Z.to_nat (maxAttempts c)) 1 net.

(** The message of the error that reports a failed delivery. *)
Definition failureText (attempts : Z) (lastMessage : string) : string :=
  failedAfter k +:+ pretty attempts +:+ " "
  +:+ (if attempts =? 1 then "attempt" else "attempts")
  +:+ ": " +:+ lastMessage.

(** How an outcome surfaces to the caller of the source functions. *)
Definition surface (o : Outcome) : Completion Body :=
  match o with
  | Delivered data _ => Return data
  | DeliveryFailed attempts lastMessage =>
      Throw (Error (failureText attempts lastMessage))
  | NotAttempted => Throw (Error (unexpected k))
  end.

End Execute.

(** The configuration read from the environment, with the defaults. *)
Definition configOf (env : Env) : Config :=
  {| maxAttempts := number_or (PISI_RETRY_MAX_ATTEMPTS env) 5;
     baseDelay := number_or (PISI_RETRY_BASE_DELAY_MS env) 500;
     maxDelay := number_or (PISI_RETRY_MAX_DELAY_MS env) 5000 |}.

Definition subscribeKind (env : Env) (msisdn : string) (plan : Plan) : Kind :=
  {| request := subscribe_request env msisdn plan;
     failedAfter := "Failed to subscribe user after ";
     failedDefault := "Subscription request failed";
     nonSuccessDefault := "Subscription request did not succeed";
     unexpected := "Unexpected error while subscribing user" |}.

Definition chargeKind (env : Env) (msisdn : string) (plan : Plan) : Kind :=
  {| request := charge_request env msisdn plan;
     failedAfter := "Failed to charge user after ";
     failedDefault := "Charge request failed";
     nonSuccessDefault := "Charge request did not succeed";
     unexpected := "Unexpected error while charging user" |}.

(** The events of [j] failed attempts that were each followed by a backoff
    sleep, starting at attempt [n] and at the [draw]-th random value. *)
Fixpoint backoffs (random : nat -> Q) (c : Config) (r : Request)
         (n : Z) (draw : nat) (j : nat) : list Event :=
  match j with
  | O => []
  | S j => Post r :: Sleep (delay c n (random draw))
           :: backoffs random c r (n + 1) (S draw) j
  end.

(** The two source functions that retry. *)
Inductive Retrying := Subscribe | Charge.

Definition deliver (a : Retrying) :=
  match a with
  | Subscribe => subscribeUser
  | Charge => chargeUser
  end.

Definition kindOf (a : Retrying) :=
  match a with
  | Subscribe => subscribeKind
  | Charge => chargeKind
  end.

(** Observations on a trace. *)
Definition isPost (e : Event) : bool :=
  match e with Post _ => true | Sleep _ => false end.
Definition isSleep (e : Event) : bool :=
  match e with Post _ => false | Sleep _ => true end.
Definition posts (tr : list Event) : nat := length (filter isPost tr).
Definition sleeps (tr : list Event) : nat := length (filter isSleep tr).

(** The statuses the specification names. *)
Definition retryableStatus (s : option Z) : Prop :=
  s = None \/ exists z, s = Some z /\ (500 <= z <= 599 \/ z = 429 \/ z = 408).
Definition terminalStatus (s : option Z) : Prop :=
  exists z, s = Some z /\ 400 <= z <= 499 /\ z <> 429 /\ z <> 408.

End Executor.

(* ================================================================== *)
(** ** modules/quiz/quiz.route.ts: [POST /sms/incoming]                *)
(* ================================================================== *)

Module Route.
Import Js Session Quiz Sms.

(** Everything a request handler can touch. *)
Record World := {
  sessions : State;
  net : Net
}.

(** Handlers: they change the world and return or throw; a thrown value
    skips the rest of the handler. *)
Definition Handler (A : Type) : Type := World -> Completion A * World.

Definition ret {A} (a : A) : Handler A := fun w => (Return a, w).

Definition bind {A B} (c : Handler A) (k : A -> Handler B) : Handler B :=
  fun w =>
    match c w with
    | (Return a, w) => k a w
    | (Throw e, w) => (Throw e, w)
    end.

Notation "'await' x <~ c ;; k" := (bind c (fun x => k))
  (at level 10, x name, c at level 99, k at level 200).

(** Calls into [shared/sms.ts]. *)
Definition onNet {A} (f : Net -> Completion A * Net) : Handler A :=
  fun w =>
    let '(c, n) := f (net w) in
    (c, {| sessions := sessions w; net := n |}).

(** Calls into [SmsQuizService]. *)
Definition onSessions {A} (f : State -> Completion A * State) : Handler A :=
  fun w =>
    let '(c, st) := f (sessions w) in
    (c, {| sessions := st; net := net w |}).

Definition completed {A} (c : Completion A) : Handler A := fun w => (c, w).

Inductive HttpReply :=
| BadRequest (error : string)     (* [reply.code(400).send({ error })] *)
| Ok.                             (* [reply.code(200).send({ status: 'ok' })] *)

(** [${options[i]}]: a missing element prints as "undefined". *)
Definition optionAt (options : list (option string)) (i : nat) : string :=
  match options !! i with
  | Some v => display v
  | None => "undefined"
  end.

(** The four option lines shared by the reply templates. *)
Definition optionLines (q : Question) : string :=
  LF +:+ "A) " +:+ optionAt (options q) 0 +:+
  LF +:+ "B) " +:+ optionAt (options q) 1 +:+
  LF +:+ "C) " +:+ optionAt (options q) 2 +:+
  LF +:+ "D) " +:+ optionAt (options q) 3.

(** Lines 33, 37 and 41; reading [firstQ.text] of [undefined] throws. *)
Definition startedMsg (firstQ : option Question) : Completion string :=
  match firstQ with
  | None => Throw TypeError
  | Some firstQ =>
      Return ("Quiz started!" +:+ LF +:+ "Q1: " +:+ display (text firstQ)
              +:+ optionLines firstQ)
  end.

Definition verdict (correct : bool) : string :=
  if correct then "Correct!" else "Wrong!".

(** Lines 44-55. *)
Definition answerMsg (result : AnswerResult) : string :=
  match result with
  | NoSession error =>
      if truthy (Some error) then error else verdict false
  | Answered correct nextQuestion done score aggregateScore =>
      if done then
        "Quiz complete! Your score: " +:+ pretty score +:+ "/10. Aggregate: "
        +:+ pretty aggregateScore
      else
        match nextQuestion with
        | Some q =>
            verdict correct +:+ LF +:+ "Q" +:+ pretty (id q) +:+ ": "
            +:+ display (text q) +:+ optionLines q
        | None => verdict correct
        end
  end.

Section Handlers.
Variable env : Env.
Variable gateway : nat -> AxiosResult.
Variable random : nat -> Q.
Variable table : list Db.Row.      (* the [questions] table *)

Definition welcomeDaily : string :=
  "Welcome to Brain Teaser! Answer simple questions and stand a chance to win fantastic prizes.".
Definition welcomeWeekly : string :=
  "Welcome to Brain Teaser Weekly! Answer simple questions and stand a chance to win fantastic prizes.".
Definition welcomeMonthly : string :=
  "Welcome to Brain Teaser Monthly! Answer simple questions and stand a chance to win fantastic prizes.".

(** [await SmsQuizService.startQuiz(phoneNumber)] *)
Definition startQuizCall (phoneNumber : string) : Handler (option Question) :=
  onSessions (fun st =>
    let '(firstQ, st) := startQuiz table phoneNumber st in (Return firstQ, st)).

(** The handler of [/sms/incoming]; [None] is a missing body field. *)
Definition incoming (from message : option string) : Handler HttpReply :=
  if negb (truthy from) || negb (truthy message) then
    ret (BadRequest "Missing from or message")
  else
    let from := default "" from in
    let message := default "" message in
    await responseMsg <~
      (if String.eqb (toUpperCase (trim message)) "BTD" then
         await _ <~ onNet (sendSms env gateway from welcomeDaily) ;;
         await _ <~ onNet (subscribeUser env gateway random from DAILY) ;;
         await _ <~ onNet (chargeUser env gateway random from DAILY) ;;
         await firstQ <~ startQuizCall from ;;
         completed (startedMsg firstQ)
       else if String.eqb (toUpperCase (trim message)) "BTW" then
         await _ <~ onNet (sendSms env gateway from welcomeWeekly) ;;
         await firstQ <~ startQuizCall from ;;
         completed (startedMsg firstQ)
       else if String.eqb (toUpperCase (trim message)) "BTM" then
         await _ <~ onNet (sendSms env gateway from welcomeMonthly) ;;
         await firstQ <~ startQuizCall from ;;
         completed (startedMsg firstQ)
       else
         await result <~ onSessions (processAnswer from (trim message)) ;;
         ret (answerMsg result)) ;;
    await _ <~ onNet (sendSms env gateway from responseMsg) ;;
    ret Ok.

(** The handler of [/start]. *)
Definition startEndpoint (phoneNumber : option string)
  : Handler (HttpReply + option Question) :=
  if negb (truthy phoneNumber) then
    ret (inl (BadRequest "Missing phoneNumber"))
  else
    await firstQ <~ startQuizCall (default "" phoneNumber) ;;
    ret (inr firstQ).

End Handlers.

End Route.

(* ================================================================== *)
(** ** Vocabulary of the Progression Engine                            *)
(* ================================================================== *)

Module Engine.
Import Js Session Quiz.

(** The session invariant of the data model. *)
Definition invariant (s : QuizSession) : Prop :=
  (currentQuestionIndex s <= length (questions s))%nat
  /\ (isCompleted s = true <-> currentQuestionIndex s = length (questions s)).

(** Every session object built so far satisfies the invariant. *)
Definition heapInvariant (st : State) : Prop :=
  forall r s, heap st !! r = Some s -> invariant s.

(** The provider returned at least one question. *)
Definition served (table : list Db.Row) : Prop := table <> [].

(** States the two operations can produce from the initial one, when every
    [startQuiz] is served a table that satisfies [ok]. *)
Inductive reachable (ok : list Db.Row -> Prop) : State -> Prop :=
| reachable_init : reachable ok init
| reachable_start table phoneNumber st :
    ok table -> reachable ok st ->
    reachable ok (snd (startQuiz table phoneNumber st))
| reachable_answer phoneNumber answer st :
    reachable ok st ->
    reachable ok (snd (processAnswer phoneNumber answer st)).

(** Stored references are allocated and no two keys share one. *)
Definition separated (st : State) : Prop :=
  (forall p r, sessionStore st !! p = Some r -> (r < next st)%nat)
  /\ (forall p q r, sessionStore st !! p = Some r ->
                    sessionStore st !! q = Some r -> p = q).

(** A question [processAnswer] can grade. *)
Definition answerable (q : Question) : Prop := is_Some (correctAnswer q).

(** The session object [startQuiz] builds. *)
Definition fresh (table : list Db.Row) (phoneNumber : string) : QuizSession :=
  {| phoneNumber := phoneNumber;
     currentQuestionIndex := 0;
     questions := getRandomQuestions table;
     currentScore := 0;
     isCompleted := false;
     aggregateScore := 0 |}.

(** Consecutive [processAnswer] calls of one subscriber. *)
Fixpoint submitAll (phoneNumber : string) (answers : list string) (st : State)
  : list (Completion AnswerResult) * State :=
  match answers with
  | [] => ([], st)
  | a :: answers =>
      let '(r, st) := processAnswer phoneNumber a st in
      let '(rs, st) := submitAll phoneNumber answers st in
      (r :: rs, st)
  end.

(** How many of [answers] match the questions they meet, in order. *)
Fixpoint grade (qs : list Question) (answers : list string) : nat :=
  match qs, answers with
  | q :: qs, a :: answers =>
      (if match correctAnswer q with
          | Some expected => sameAnswer expected a
          | None => false
          end
       then 1 else 0)%nat + grade qs answers
  | _, _ => 0%nat
  end.

(** The [done] field of a result, when there is one. *)
Definition doneOf (r : Completion AnswerResult) : option bool :=
  match r with
  | Return (Answered _ _ done _ _) => Some done
  | _ => None
  end.

End Engine.

(* ================================================================== *)
(** ** Vocabulary of the dispatcher                                    *)
(* ================================================================== *)

Module Dialogue.
Import Js Session Sms Route.

(** The request [sendSms] builds. *)
Definition smsRequest (env : Env) (to message : string) : Request :=
  {| url := baseUrl env +:+ "/v1/sms/outbound/send";
     payload := SmsPayload (or_default (PISISID env) "247") to to message;
     timeout := None |}.

(** A text the handler treats as an answer: present, and no start keyword
    once trimmed and upper-cased. *)
Definition isAnswerText (message : string) : Prop :=
  message <> ""
  /\ toUpperCase (trim message) <> "BTD"
  /\ toUpperCase (trim message) <> "BTW"
  /\ toUpperCase (trim message) <> "BTM".

(** A text that is taken as an answer and matches the token of [q]. *)
Definition answersCorrectly (q : Question) (message : string) : Prop :=
  isAnswerText message
  /\ exists expected,
       correctAnswer q = Some expected
       /\ toUpperCase (trim expected) = toUpperCase (trim message).

(** The text of the last SMS sent, if the last event is one. *)
Definition lastSms (n : Net) : option string :=
  match last (trace n) with
  | Some (Post {| payload := SmsPayload _ _ _ message |}) => Some message
  | _ => None
  end.

(** Consecutive webhook calls from one subscriber. *)
Fixpoint converse (env : Env) (gateway : nat -> AxiosResult) (random : nat -> Q)
         (table : list Db.Row) (from : string) (messages : list string) (w : World)
  : list (Completion HttpReply) * World :=
  match messages with
  | [] => ([], w)
  | m :: messages =>
      let '(r, w) := incoming env gateway random table (Some from) (Some m) w in
      let '(rs, w) := converse env gateway random table from messages w in
      (r :: rs, w)
  end.

End Dialogue.

(* ================================================================== *)
(** ** Sample inputs                                                   *)
(* ================================================================== *)

Module Sample.
Import Js Session Quiz Sms Route.

(** No variable of the retry configuration, nor any other, is set. *)
Definition noEnv : Env :=
  {| PISIMOB_BASEURL := None; PISISID := None; PISIPID := None;
     PISI_RETRY_MAX_ATTEMPTS := None;
     PISI_RETRY_BASE_DELAY_MS := None;
     PISI_RETRY_MAX_DELAY_MS := None |}.

Definition freshNet : Net := {| calls := 0; draws := 0; trace := [] |}.

Definition freshWorld : World := {| sessions := init; net := freshNet |}.

(** [Math.random()] always returns 1/2. *)
Definition half (i : nat) : Q := 1 # 2.

(** Gateways that answer every call alike. *)
Definition accepted : Body := {| success := true; message := None; error := None |}.
Definition declined : Body := {| success := false; message := Some "nope"; error := None |}.

Definition alwaysAccepts (i : nat) : AxiosResult := Resolved (Some accepted).
Definition alwaysDeclines (i : nat) : AxiosResult := Resolved (Some declined).
Definition alwaysStatus (s : Z) (i : nat) : AxiosResult :=
  Rejected {| status := Some s; dataMessage := None;
              errorMessage := "Request failed" |}.

Definition subscriber : string := "2547000000".

(** A table of [n] questions whose correct answer is "A". *)
Definition sampleRow (i : nat) : Db.Row :=
  {| Db.id := Z.of_nat i;
     Db.question := Some ("Question " +:+ pretty i);
     Db.optionA := Some "yes"; Db.optionB := Some "no";
     Db.optionC := Some "both"; Db.optionD := Some "neither";
     Db.answer := Some "A" |}.

Definition sampleTable (n : nat) : list Db.Row := map sampleRow (seq 1 n).

(** Two subscribers, each in a quiz of ten questions. *)
Definition other : string := "2547000001".

Definition twoQuizzes : State :=
  snd (startQuiz (sampleTable 10) other
         (snd (startQuiz (sampleTable 10) subscriber init))).

End Sample.

(* ================================================================== *)
(** ** Further vocabulary                                              *)
(* ================================================================== *)

Module Observations.
Import Js Session Quiz Sms Executor Route Engine Dialogue.

(** A reply after which a retrying function tries again, unless the attempt
    was the last one: a rejection whose status passes [isRetryable], or a
    resolved response without [success === true]. *)
Definition retryableReply (r : AxiosResult) : Prop :=
  match r with
  | Resolved (Some data) => success data = false
  | Resolved None => True
  | Rejected e => isRetryable (status e) = true
  end.

(** Total time asked of [sleep] along a trace. *)
Fixpoint slept (tr : list Event) : Z :=
  match tr with
  | [] => 0
  | Sleep ms :: tr => ms + slept tr
  | Post _ :: tr => slept tr
  end.


(** What holds of the session stored under key [p]. *)
Definition settled (p : string) (s : QuizSession) : Prop :=
  phoneNumber s = p
  /\ isCompleted s = false
  /\ aggregateScore s = 0%nat
  /\ (currentScore s <= currentQuestionIndex s)%nat
  /\ ((currentQuestionIndex s < length (questions s))%nat
      \/ (currentQuestionIndex s = 0%nat /\ questions s = [])).

(** Every entry of the store leads to a session object, which is settled
    for its key, and no two entries share an object. *)
Definition storeInvariant (st : State) : Prop :=
  separated st
  /\ forall p r, sessionStore st !! p = Some r ->
       exists s, heap st !! r = Some s /\ settled p s.

End Observations.

(* ================================================================== *)
(** ** The webhook as a server                                         *)
(* ================================================================== *)

Module Webhook.
Import Js Session Quiz Sms Executor Route Engine Dialogue.

(** An outbound SMS addressed to [to]. *)
Definition smsTo (to : string) (e : Event) : Prop :=
  match e with
  | Post {| payload := SmsPayload _ msisdn to' _ |} => msisdn = to /\ to' = to
  | _ => False
  end.

(** One delivery to [/sms/incoming]: the two body fields, and the rows the
    question query returns should the handler run it. *)
Record Delivery := {
  rows : list Db.Row;
  sender : option string;
  body : option string
}.

(** The handler serving deliveries one after the other; a handler that
    throws leaves the world as it was at the throw. *)
Fixpoint serve (env : Env) (gateway : nat -> AxiosResult) (random : nat -> Q)
         (deliveries : list Delivery) (w : World) : World :=
  match deliveries with
  | [] => w
  | d :: deliveries =>
      serve env gateway random deliveries
        (snd (incoming env gateway random (rows d) (sender d) (body d) w))
  end.

End Webhook.

(* ================================================================== *)
(** * Properties                                                       *)
(* ================================================================== *)

(** ** Text *)

Module JsFacts.
Import Js.

Lemma trimEnd_keeps_head c s :
  isWhiteSpace c = false -> exists t, trimEnd (String c s) = String c t.
Proof.
  intros Hc. cbn [trimEnd]. destruct (trimEnd s); rewrite ?Hc; eauto.
Qed.

Lemma trimEnd_idempotent s : trimEnd (trimEnd s) = trimEnd s.
Proof.
  induction s as [|c s IH]; [reflexivity|].
  cbn [trimEnd]. destruct (trimEnd s) as [|d t] eqn:Ht.
  - destruct (isWhiteSpace c) eqn:Hc; [reflexivity|].
    cbn [trimEnd]. now rewrite Hc.
  - cbn [trimEnd]. cbn [trimEnd] in IH. now rewrite IH.
Qed.

Lemma trimStart_head s :
  trimStart s = EmptyString
  \/ exists c t, trimStart s = String c t /\ isWhiteSpace c = false.
Proof.
  induction s as [|c s IH]; [now left|].
  cbn [trimStart]. destruct (isWhiteSpace c) eqn:Hc; [exact IH|].
  right. eauto.
Qed.

(** Trimming twice is trimming once. *)
Lemma trim_idempotent s : trim (trim s) = trim s.
Proof.
  unfold trim. destruct (trimStart_head s) as [->|(c & t & -> & Hc)];
    [reflexivity|].
  destruct (trimEnd_keeps_head c t Hc) as [u Hu]. rewrite Hu.
  cbn [trimStart]. rewrite Hc, <- Hu. apply trimEnd_idempotent.
Qed.

(** Upper-casing neither creates nor removes white space. *)
Lemma isWhiteSpace_upperChar c : isWhiteSpace (upperChar c) = isWhiteSpace c.
Proof. destruct c as [[] [] [] [] [] [] [] []]; reflexivity. Qed.

Lemma upperChar_idempotent c : upperChar (upperChar c) = upperChar c.
Proof. destruct c as [[] [] [] [] [] [] [] []]; reflexivity. Qed.

Lemma toUpperCase_idempotent s : toUpperCase (toUpperCase s) = toUpperCase s.
Proof.
  induction s as [|c s IH]; [reflexivity|].
  cbn [toUpperCase]. now rewrite upperChar_idempotent, IH.
Qed.

Lemma trimStart_toUpperCase s : trimStart (toUpperCase s) = toUpperCase (trimStart s).
Proof.
  induction s as [|c s IH]; [reflexivity|].
  cbn [toUpperCase trimStart]. rewrite isWhiteSpace_upperChar.
  destruct (isWhiteSpace c); [exact IH|reflexivity].
Qed.

Lemma trimEnd_toUpperCase s : trimEnd (toUpperCase s) = toUpperCase (trimEnd s).
Proof.
  induction s as [|c s IH]; [reflexivity|].
  cbn [toUpperCase trimEnd]. rewrite IH, isWhiteSpace_upperChar.
  destruct (trimEnd s); cbn [toUpperCase]; [|reflexivity].
  now destruct (isWhiteSpace c).
Qed.

Lemma trim_toUpperCase s : trim (toUpperCase s) = toUpperCase (trim s).
Proof. unfold trim. now rewrite trimStart_toUpperCase, trimEnd_toUpperCase. Qed.

Lemma append_cons c s t : String c s +:+ t = String c (s +:+ t).
Proof. reflexivity. Qed.

Lemma trimEnd_blank ws : blank ws = true -> trimEnd ws = EmptyString.
Proof.
  induction ws as [|c ws IH]; [reflexivity|].
  cbn [blank trimEnd]. intros [Hc Hws]%andb_prop. now rewrite (IH Hws), Hc.
Qed.

Lemma trimStart_blank ws : blank ws = true -> trimStart ws = EmptyString.
Proof.
  induction ws as [|c ws IH]; [reflexivity|].
  cbn [blank trimStart]. intros [Hc Hws]%andb_prop. rewrite Hc. now apply IH.
Qed.

Lemma trimStart_padding ws s : blank ws = true -> trimStart (ws +:+ s) = trimStart s.
Proof.
  induction ws as [|c ws IH]; [reflexivity|].
  cbn [blank]. intros [Hc Hws]%andb_prop.
  rewrite append_cons. cbn [trimStart]. rewrite Hc. now apply IH.
Qed.

Lemma trimEnd_padding s ws : blank ws = true -> trimEnd (s +:+ ws) = trimEnd s.
Proof.
  intros Hws. induction s as [|c s IH]; [now apply trimEnd_blank|].
  rewrite append_cons. cbn [trimEnd]. now rewrite IH.
Qed.

Lemma trim_trailing s ws : blank ws = true -> trim (s +:+ ws) = trim s.
Proof.
  intros Hws. unfold trim. induction s as [|c s IH].
  - change (EmptyString +:+ ws) with ws. now rewrite (trimStart_blank ws Hws).
  - rewrite append_cons. cbn [trimStart].
    destruct (isWhiteSpace c); [exact IH|].
    rewrite <- append_cons. now apply trimEnd_padding.
Qed.

(** White space around a text does not survive [trim]. *)
Lemma trim_padding ws1 s ws2 :
  blank ws1 = true -> blank ws2 = true -> trim (ws1 +:+ s +:+ ws2) = trim s.
Proof.
  intros H1 H2. rewrite <- (trim_trailing s ws2 H2).
  unfold trim. now rewrite trimStart_padding.
Qed.


Lemma trim_padding_example : trim "   B  " = "B".
Proof. reflexivity. Qed.

End JsFacts.

(** ** Gateway delivery *)

Module DeliveryFacts.
Import Js Sms Executor.

Lemma or_default_nonempty a d : d <> "" -> or_default a d <> "".
Proof.
  intros Hd. unfold or_default, or_else.
  destruct a as [s|]; simpl; [|exact Hd].
  destruct (String.eqb_spec s ""); simpl; [exact Hd|assumption].
Qed.

Lemma or_default_rethrown m d : m <> "" -> or_default (or_else None (Some m)) d = m.
Proof.
  intros Hm. unfold or_default, or_else. simpl.
  destruct (String.eqb_spec m ""); simpl; [contradiction|reflexivity].
Qed.

(** One iteration of a source loop against one step of the executor: the
    three shapes of a reply, and before or at the last attempt.  [IH] is the
    statement for the remaining budget and [max] the attempt limit as the
    source names it. *)
Ltac retry_iteration IH max :=
  unfold post, mathRandom;
  match goal with
  | |- context [classify _ (?gateway (calls ?n))] =>
      destruct (gateway (calls n)) as [[?|]|?]; cbn [classify]
  end;
  [ match goal with
    | |- context [success ?d] => destruct (success d); [reflexivity|]
    end
  | idtac
  | match goal with
    | |- context [isRetryable (status ?e)] =>
        destruct (isRetryable (status e)); cbn [andb]; [|reflexivity]
    end ];
  cbn [configOf maxAttempts]; fold max;
  match goal with
  | |- context [?attempt <? max] => destruct (attempt <? max)
  end;
  try (rewrite IH; reflexivity); try reflexivity;
  cbn -[pretty String.append or_default or_else];
  rewrite or_default_rethrown; [reflexivity|now apply or_default_nonempty].

Section Refinement.
Variable env : Env.
Variable gateway : nat -> AxiosResult.
Variable random : nat -> Q.
Variables (msisdn : string) (plan : Plan).

Lemma subscribe_loop_executes budget attempt n :
  subscribe_loop env gateway random msisdn plan budget attempt n =
  let '(o, n') := attemptFrom gateway random (configOf env)
                    (subscribeKind env msisdn plan) budget attempt n in
  (surface (subscribeKind env msisdn plan) o, n').
Proof.
  revert attempt n. induction budget as [|budget IH]; intros attempt n;
    [reflexivity|].
  cbn [subscribe_loop attemptFrom].
  unfold subscribe_attempt, subscribe_nonSuccess, subscribe_catch,
    subscribe_computeDelay.
  cbn [request subscribeKind].
  retry_iteration IH (subscribe_maxAttempts env).
Qed.

Lemma charge_loop_executes budget attempt n :
  charge_loop env gateway random msisdn plan budget attempt n =
  let '(o, n') := attemptFrom gateway random (configOf env)
                    (chargeKind env msisdn plan) budget attempt n in
  (surface (chargeKind env msisdn plan) o, n').
Proof.
  revert attempt n. induction budget as [|budget IH]; intros attempt n;
    [reflexivity|].
  cbn [charge_loop attemptFrom].
  unfold charge_attempt, charge_nonSuccess, charge_catch, charge_computeDelay.
  cbn [request chargeKind].
  retry_iteration IH (charge_maxAttempts env).
Qed.

(** Both retrying functions are the executor at their own kind. *)
Lemma deliver_executes a n :
  deliver a env gateway random msisdn plan n =
  let '(o, n') := execute gateway random (configOf env)
                    (kindOf a env msisdn plan) n in
  (surface (kindOf a env msisdn plan) o, n').
Proof.
  destruct a; cbn [deliver kindOf]; unfold execute.
  - apply subscribe_loop_executes.
  - apply charge_loop_executes.
Qed.
End Refinement.

Lemma retryableStatus_isRetryable s : retryableStatus s -> isRetryable s = true.
Proof.
  intros [->|(z & -> & Hz)]; [reflexivity|]. unfold isRetryable.
  destruct Hz as [Hz|[->| ->]]; [|reflexivity..].
  replace (500 <=? z) with true by (symmetry; apply Z.leb_le; lia).
  now rewrite orb_true_r.
Qed.

Lemma terminalStatus_isRetryable s : terminalStatus s -> isRetryable s = false.
Proof.
  intros (z & -> & Hz & H429 & H408). unfold isRetryable.
  replace (z =? 0) with false by (symmetry; apply Z.eqb_neq; lia).
  replace (500 <=? z) with false by (symmetry; apply Z.leb_gt; lia).
  replace (z =? 429) with false by (symmetry; now apply Z.eqb_neq).
  replace (z =? 408) with false by (symmetry; now apply Z.eqb_neq).
  reflexivity.
Qed.

Section Runs.
Variable gateway : nat -> AxiosResult.
Variable random : nat -> Q.
Variable c : Config.
Variable k : Kind.

(** [j] retryable failures in a row, none of them on the last attempt. *)
Lemma attemptFrom_backoffs j : forall budget n net,
  (forall i, (i < j)%nat ->
     exists m, classify k (gateway (calls net + i)%nat) = RetryableFailure m) ->
  n + Z.of_nat j <= maxAttempts c ->
  attemptFrom gateway random c k (j + budget) n net =
  attemptFrom gateway random c k budget (n + Z.of_nat j)
    {| calls := calls net + j;
       draws := draws net + j;
       trace := trace net ++ backoffs random c (request k) n (draws net) j |}.
Proof.
  induction j as [|j IH]; intros budget n net Hfail Hle.
  - cbn [backoffs plus]. rewrite Z.add_0_r, !Nat.add_0_r, app_nil_r.
    now destruct net.
  - cbn [plus attemptFrom]. unfold post, mathRandom.
    destruct (Hfail 0%nat ltac:(lia)) as [m Hm].
    rewrite Nat.add_0_r in Hm. rewrite Hm.
    replace (n <? maxAttempts c) with true by (symmetry; apply Z.ltb_lt; lia).
    rewrite IH.
    + unfold sleep. cbn [calls draws trace backoffs].
      f_equal; [lia|]. f_equal; [lia..|].
      now rewrite <- !app_assoc.
    + intros i Hi. cbn [calls sleep].
      destruct (Hfail (S i) ltac:(lia)) as [m' Hm']. exists m'.
      now replace (S (calls net) + i)%nat with (calls net + S i)%nat by lia.
    + lia.
Qed.
End Runs.


Lemma posts_app l1 l2 : posts (l1 ++ l2) = (posts l1 + posts l2)%nat.
Proof. unfold posts. now rewrite filter_app, length_app. Qed.

Lemma sleeps_app l1 l2 : sleeps (l1 ++ l2) = (sleeps l1 + sleeps l2)%nat.
Proof. unfold sleeps. now rewrite filter_app, length_app. Qed.

Lemma posts_backoffs random c r j : forall n d,
  posts (backoffs random c r n d j) = j.
Proof.
  induction j as [|j IH]; intros n d; [reflexivity|].
  cbn [backoffs]. change (posts (?x :: ?y :: ?l)) with (posts ([x; y] ++ l)).
  rewrite posts_app, IH. reflexivity.
Qed.

Lemma sleeps_backoffs random c r j : forall n d,
  sleeps (backoffs random c r n d j) = j.
Proof.
  induction j as [|j IH]; intros n d; [reflexivity|].
  cbn [backoffs]. change (sleeps (?x :: ?y :: ?l)) with (sleeps ([x; y] ++ l)).
  rewrite sleeps_app, IH. reflexivity.
Qed.

Lemma classify_rejected_retryable k e :
  retryableStatus (status e) ->
  classify k (Rejected e) =
  RetryableFailure
    (or_default (or_else (dataMessage e) (Some (errorMessage e))) (failedDefault k)).
Proof. intros H. cbn [classify]. now rewrite (retryableStatus_isRetryable _ H). Qed.

Lemma classify_rejected_terminal k e :
  terminalStatus (status e) ->
  classify k (Rejected e) =
  TerminalFailure
    (or_default (or_else (dataMessage e) (Some (errorMessage e))) (failedDefault k)).
Proof. intros H. cbn [classify]. now rewrite (terminalStatus_isRetryable _ H). Qed.

(** C2.  For [subscribeUser] and [chargeUser]: when the first [retries]
    attempts are rejected with a retryable status (none, 5xx, 429, 408) and
    the next attempt is rejected either with another 4xx status or, being
    attempt number [maxAttempts], with a retryable one, the call raises
    the failure naming [retries + 1] attempts.  Each of the earlier
    rejections is followed by one backoff sleep and one further request;
    nothing follows the last request.  With [retries = 0] and a terminal
    status this is one request, no sleep, and a failure after 1 attempt. *)
Theorem retryable_exhausts_terminal_raises
    (a : Retrying) (env : Env) (gateway : nat -> AxiosResult)
    (random : nat -> Q) (msisdn : string) (plan : Plan) (net : Net)
    (retries : nat) (e : Caught) :
  let c := configOf env in
  let K := kindOf a env msisdn plan in
  Z.of_nat retries + 1 <= maxAttempts c ->
  (forall i, (i < retries)%nat ->
     exists e', gateway (calls net + i)%nat = Rejected e'
                /\ retryableStatus (status e')) ->
  gateway (calls net + retries)%nat = Rejected e ->
  terminalStatus (status e)
  \/ (retryableStatus (status e) /\ Z.of_nat retries + 1 = maxAttempts c) ->
  exists net',
    deliver a env gateway random msisdn plan net =
      (Throw (Error (failureText K (Z.of_nat retries + 1)
                       (or_default (or_else (dataMessage e) (Some (errorMessage e)))
                                   (failedDefault K)))),
       net')
    /\ trace net' =
         trace net ++ backoffs random c (request K) 1 (draws net) retries
                   ++ [Post (request K)]
    /\ posts (trace net') = (posts (trace net) + retries + 1)%nat
    /\ sleeps (trace net') = (sleeps (trace net) + retries)%nat.
Proof.
  intros c K Hle Hfail Hlast Hkind.
  rewrite deliver_executes. fold c K. unfold execute. clearbody c K.
  assert (Hbudget : exists rest, Z.to_nat (maxAttempts c) = (retries + S rest)%nat)
    by (exists (Z.to_nat (maxAttempts c) - S retries)%nat; lia).
  destruct Hbudget as [rest ->].
  rewrite attemptFrom_backoffs; [| |lia].
  - cbn [attemptFrom]. unfold post. cbn [calls draws trace].
    rewrite Hlast.
    eexists. split; [|split; [|split]].
    + destruct Hkind as [Ht|[Hr Heq]].
      * rewrite (classify_rejected_terminal _ _ Ht).
        rewrite (Z.add_comm 1). reflexivity.
      * rewrite (classify_rejected_retryable _ _ Hr).
        replace (1 + Z.of_nat retries <? maxAttempts c) with false
          by (symmetry; apply Z.ltb_ge; lia).
        rewrite (Z.add_comm 1). reflexivity.
    + cbn [trace]. now rewrite <- app_assoc.
    + cbn [trace]. rewrite !posts_app, posts_backoffs.
      change (posts [Post (request K)]) with 1%nat. lia.
    + cbn [trace]. rewrite !sleeps_app, sleeps_backoffs.
      change (sleeps [Post (request K)]) with 0%nat. lia.
  - intros i Hi. destruct (Hfail i Hi) as (e' & He' & Hs).
    rewrite He'. eexists. now apply classify_rejected_retryable.
Qed.


(** A gateway that keeps answering 503 under the default configuration:
    five requests, four sleeps, a failure after 5 attempts. *)
Lemma retryable_exhausts_terminal_raises_witness :
  exists net',
    subscribeUser Sample.noEnv (Sample.alwaysStatus 503) Sample.half
      Sample.subscriber DAILY Sample.freshNet =
      (Throw (Error "Failed to subscribe user after 5 attempts: Request failed"), net')
    /\ trace net' =
         backoffs Sample.half (configOf Sample.noEnv)
           (subscribe_request Sample.noEnv Sample.subscriber DAILY) 1 0 4
         ++ [Post (subscribe_request Sample.noEnv Sample.subscriber DAILY)]
    /\ posts (trace net') = 5%nat
    /\ sleeps (trace net') = 4%nat.
Proof.
  apply (retryable_exhausts_terminal_raises Subscribe Sample.noEnv
           (Sample.alwaysStatus 503) Sample.half Sample.subscriber DAILY
           Sample.freshNet 4
           {| status := Some 503; dataMessage := None;
              errorMessage := "Request failed" |}).
  - vm_compute. discriminate.
  - intros i _. eexists. split; [reflexivity|].
    right. exists 503. split; [reflexivity|]. left. lia.
  - reflexivity.
  - right. split; [|reflexivity].
    right. exists 503. split; [reflexivity|]. left. lia.
Defined.

(** A 404 on the first call: one request, no sleep, 1 attempt. *)
Example terminal_on_first_call :
  subscribeUser Sample.noEnv (Sample.alwaysStatus 404) Sample.half
    Sample.subscriber DAILY Sample.freshNet =
  (Throw (Error "Failed to subscribe user after 1 attempt: Request failed"),
   {| calls := 1; draws := 0;
      trace := [Post (subscribe_request Sample.noEnv Sample.subscriber DAILY)] |}).
Proof. reflexivity. Qed.

Example charge_terminal_on_first_call :
  chargeUser Sample.noEnv (Sample.alwaysStatus 404) Sample.half
    Sample.subscriber DAILY Sample.freshNet =
  (Throw (Error "Failed to charge user after 1 attempt: Request failed"),
   {| calls := 1; draws := 0;
      trace := [Post (charge_request Sample.noEnv Sample.subscriber DAILY)] |}).
Proof. reflexivity. Qed.

(** Under the defaults the sleeps are 500, 1000, 2000 and 4000 ms plus the
    jitter, here 50. *)
Example default_backoff_sleeps :
  filter isSleep
    (trace (snd (chargeUser Sample.noEnv (Sample.alwaysStatus 429) Sample.half
                   Sample.subscriber DAILY Sample.freshNet))) =
  [Sleep 550; Sleep 1050; Sleep 2050; Sleep 4050].
Proof. vm_compute. reflexivity. Qed.


(** C3, the claim as stated fails: facing a gateway that answers 200 with
    [success: false], [sendSms] returns that body after one request, while
    [subscribeUser] retries and then raises. *)
Lemma notify_accepts_missing_success_counterexample :
  Sample.alwaysDeclines 0%nat = Resolved (Some Sample.declined)
  /\ success Sample.declined = false
  /\ sendSms Sample.noEnv Sample.alwaysDeclines Sample.subscriber "Hello"
       Sample.freshNet =
     (Return (Some Sample.declined),
      {| calls := 1; draws := 0;
         trace := [Post {| url := "https://api.pisimobile.net/v1/sms/outbound/send";
                           payload := SmsPayload "247" Sample.subscriber
                                        Sample.subscriber "Hello";
                           timeout := None |}] |})
  /\ fst (subscribeUser Sample.noEnv Sample.alwaysDeclines Sample.half
            Sample.subscriber DAILY Sample.freshNet) =
     Throw (Error "Failed to subscribe user after 5 attempts: nope")
  /\ posts (trace (snd (subscribeUser Sample.noEnv Sample.alwaysDeclines Sample.half
                          Sample.subscriber DAILY Sample.freshNet))) = 5%nat.
Proof. repeat split; vm_compute; reflexivity. Qed.

(** C3, amended.  [subscribeUser] and [chargeUser] are one executor run at
    two kinds that differ in the endpoint and in the wording of failures;
    for both, a resolved response without [success === true] before the
    last attempt costs a backoff sleep and leads to the next attempt.
    [sendSms] issues a single request without timeout: whatever resolves
    is returned, whatever is rejected is raised, nothing is retried. *)
Theorem subscribe_charge_share_executor_notify_single_shot
    (env : Env) (gateway : nat -> AxiosResult) (random : nat -> Q)
    (msisdn : string) (plan : Plan) (net : Net) :
  (forall a,
     deliver a env gateway random msisdn plan net =
     let '(o, net') := execute gateway random (configOf env)
                         (kindOf a env msisdn plan) net in
     (surface (kindOf a env msisdn plan) o, net'))
  /\ payload (request (subscribeKind env msisdn plan)) =
     payload (request (chargeKind env msisdn plan))
  /\ timeout (request (subscribeKind env msisdn plan)) =
     timeout (request (chargeKind env msisdn plan))
  /\ (forall attempt data,
        gateway (calls net) = Resolved data ->
        match data with Some d => success d | None => false end = false ->
        attempt < maxAttempts (configOf env) ->
        let slept r :=
          {| calls := S (calls net); draws := S (draws net);
             trace := trace net ++
                      [Post r; Sleep (delay (configOf env) attempt
                                        (random (draws net)))] |} in
        subscribe_attempt env gateway random msisdn plan attempt net =
          (Continue, slept (subscribe_request env msisdn plan))
        /\ charge_attempt env gateway random msisdn plan attempt net =
          (Continue, slept (charge_request env msisdn plan)))
  /\ (forall to message,
        sendSms env gateway to message net =
        (match gateway (calls net) with
         | Resolved data => Return data
         | Rejected e => Throw (Error (or_default (dataMessage e) (errorMessage e)))
         end,
         {| calls := S (calls net); draws := draws net;
            trace := trace net ++
                     [Post {| url := baseUrl env +:+ "/v1/sms/outbound/send";
                              payload := SmsPayload (or_default (PISISID env) "247")
                                           to to message;
                              timeout := None |}] |})).
Proof.
  split; [|split; [|split; [|split]]].
  - intros a. apply deliver_executes.
  - reflexivity.
  - reflexivity.
  - intros attempt data Hgw Hns Hlt slept.
    apply Z.ltb_lt in Hlt. cbn [configOf maxAttempts] in Hlt.
    unfold subscribe_attempt, charge_attempt, subscribe_nonSuccess,
      charge_nonSuccess, subscribe_maxAttempts, charge_maxAttempts,
      subscribe_computeDelay, charge_computeDelay, mathRandom, sleep, post.
    rewrite Hgw. destruct data as [d|]; cbn in Hns; rewrite ?Hns, Hlt.
    + split; unfold slept; cbn [calls draws trace];
        rewrite <- app_assoc; reflexivity.
    + split; unfold slept; cbn [calls draws trace];
        rewrite <- app_assoc; reflexivity.
  - intros to message. unfold sendSms, post.
    destruct (gateway (calls net)); reflexivity.
Qed.


Lemma subscribe_charge_share_executor_notify_single_shot_witness :
  subscribe_attempt Sample.noEnv Sample.alwaysDeclines Sample.half
    Sample.subscriber DAILY 1 Sample.freshNet =
    (Continue,
     {| calls := 1; draws := 1;
        trace := [Post (subscribe_request Sample.noEnv Sample.subscriber DAILY);
                  Sleep 550] |})
  /\ charge_attempt Sample.noEnv Sample.alwaysDeclines Sample.half
       Sample.subscriber DAILY 1 Sample.freshNet =
    (Continue,
     {| calls := 1; draws := 1;
        trace := [Post (charge_request Sample.noEnv Sample.subscriber DAILY);
                  Sleep 550] |}).
Proof.
  exact (proj1 (proj2 (proj2 (proj2
           (subscribe_charge_share_executor_notify_single_shot
              Sample.noEnv Sample.alwaysDeclines Sample.half
              Sample.subscriber DAILY Sample.freshNet))))
           1 (Some Sample.declined) eq_refl eq_refl eq_refl).
Defined.

(** *** Backoff *)

Lemma jitter_bounds r : (0 <= r)%Q -> (r < 1)%Q -> 0 <= jitter r < 100.
Proof.
  intros H0 H1. unfold jitter. split.
  - change 0 with (Qfloor (inject_Z 0)). apply Qfloor_resp_le.
    destruct r as [a b]. unfold Qle in *. cbn in *. nia.
  - pose proof (Qfloor_le (r * inject_Z 100)) as Hf.
    assert (Hlt : (inject_Z (Qfloor (r * inject_Z 100)) < inject_Z 100)%Q).
    { eapply Qle_lt_trans; [exact Hf|].
      destruct r as [a b]. unfold Qlt in *. cbn in *. nia. }
    rewrite Zlt_Qlt. exact Hlt.
Qed.

(** The draws that give jitter [k] are those of [k/100, (k+1)/100). *)
Lemma jitter_preimage r k :
  jitter r = k <-> ((k # 100) <= r)%Q /\ (r < (k + 1 # 100))%Q.
Proof.
  unfold jitter.
  pose proof (Qfloor_le (r * inject_Z 100)) as Hlo.
  pose proof (Qlt_floor (r * inject_Z 100)) as Hhi.
  assert (Hle : forall z, ((z # 100) <= r)%Q <-> (inject_Z z <= r * inject_Z 100)%Q).
  { intros z. destruct r as [a b]. unfold Qle. cbn. split; intros; nia. }
  assert (Hlt : forall z, (r < (z # 100))%Q <-> (r * inject_Z 100 < inject_Z z)%Q).
  { intros z. destruct r as [a b]. unfold Qlt. cbn. split; intros; nia. }
  split.
  - intros <-. split; [now apply Hle|now apply Hlt].
  - intros [H1 H2]. apply Hle in H1. apply Hlt in H2.
    assert (k <= Qfloor (r * inject_Z 100)).
    { rewrite <- (Qfloor_Z k). now apply Qfloor_resp_le. }
    assert (Qfloor (r * inject_Z 100) < k + 1).
    { rewrite Zlt_Qlt. eapply Qle_lt_trans; eassumption. }
    lia.
Qed.




(** *** First-try successes *)

Lemma sendSms_resolved env gateway to message n data :
  gateway (calls n) = Resolved data ->
  sendSms env gateway to message n =
  (Return data,
   {| calls := S (calls n); draws := draws n;
      trace := trace n ++ [Post (Dialogue.smsRequest env to message)] |}).
Proof. intros H. unfold sendSms, post. now rewrite H. Qed.

Lemma deliver_first_try a env gateway random msisdn plan n data :
  1 <= maxAttempts (configOf env) ->
  gateway (calls n) = Resolved (Some data) ->
  success data = true ->
  deliver a env gateway random msisdn plan n =
  (Return data,
   {| calls := S (calls n); draws := draws n;
      trace := trace n ++ [Post (request (kindOf a env msisdn plan))] |}).
Proof.
  intros Hmax Hgw Hok. rewrite deliver_executes. unfold execute.
  destruct (Z.to_nat (maxAttempts (configOf env))) as [|budget] eqn:Hb; [lia|].
  cbn [attemptFrom]. unfold post. rewrite Hgw. cbn [classify]. now rewrite Hok.
Qed.

End DeliveryFacts.

(** ** Session engine *)

Module EngineFacts.
Import Js Session Quiz Engine.

Lemma getRandomQuestions_length table :
  length (getRandomQuestions table) = Nat.min 10 (length table).
Proof. unfold getRandomQuestions. now rewrite length_map, length_take. Qed.

(** What [startQuiz] does, whatever the table. *)
Lemma startQuiz_stores table p st :
  startQuiz table p st =
  (getRandomQuestions table !! 0%nat,
   setSession p (next st) (snd (alloc (fresh table p) st)))
  /\ getSession p (snd (startQuiz table p st)) = Some (next st)
  /\ session_of p (snd (startQuiz table p st)) = Some (fresh table p).
Proof.
  split; [reflexivity|]. unfold session_of, getSession, startQuiz.
  cbn. rewrite lookup_insert_eq. cbn. now rewrite lookup_insert_eq.
Qed.

(** C1, the claim as stated fails: a table of three rows makes the
    provider return three questions; [startQuiz] returns the first and
    stores a three-question session, and the [/sms/incoming] handler
    answers as for a full quiz. *)
Lemma startQuiz_short_table_counterexample :
  (length (getRandomQuestions (Sample.sampleTable 3)) < 10)%nat
  /\ getSession Sample.subscriber init = None
  /\ fst (startQuiz (Sample.sampleTable 3) Sample.subscriber init) =
     Some {| id := 1; text := Some "Question 1";
             options := [Some "yes"; Some "no"; Some "both"; Some "neither"];
             correctAnswer := Some "A" |}
  /\ session_of Sample.subscriber
       (snd (startQuiz (Sample.sampleTable 3) Sample.subscriber init)) =
     Some (fresh (Sample.sampleTable 3) Sample.subscriber)
  /\ fst (Route.incoming Sample.noEnv Sample.alwaysAccepts Sample.half
            (Sample.sampleTable 3) (Some Sample.subscriber) (Some "BTD")
            Sample.freshWorld) = Return Route.Ok.
Proof. split; [vm_compute; lia|]. repeat split; vm_compute; reflexivity. Qed.

(** C1, amended.  When the provider returns fewer than 10 questions,
    [startQuiz] raises nothing: it stores for the subscriber a session
    holding exactly the questions returned, at index 0 with score 0 and
    not completed, and returns the first of them if there is one. *)
Theorem startQuiz_short_table
    (table : list Db.Row) (p : string) (st : State) :
  (length (getRandomQuestions table) < 10)%nat ->
  exists st',
    startQuiz table p st = (head (getRandomQuestions table), st')
    /\ session_of p st' =
       Some {| phoneNumber := p;
               currentQuestionIndex := 0;
               questions := getRandomQuestions table;
               currentScore := 0;
               isCompleted := false;
               aggregateScore := 0 |}
    /\ length (getRandomQuestions table) = length table.
Proof.
  intros Hshort. eexists. split; [|split].
  - rewrite (proj1 (startQuiz_stores table p st)).
    now rewrite <- head_lookup.
  - apply startQuiz_stores.
  - rewrite getRandomQuestions_length in *. lia.
Qed.

Lemma startQuiz_short_table_witness :
  exists st',
    startQuiz (Sample.sampleTable 3) Sample.subscriber init =
      (head (getRandomQuestions (Sample.sampleTable 3)), st')
    /\ session_of Sample.subscriber st' =
       Some (fresh (Sample.sampleTable 3) Sample.subscriber)
    /\ length (getRandomQuestions (Sample.sampleTable 3)) = 3%nat.
Proof.
  apply (startQuiz_short_table (Sample.sampleTable 3) Sample.subscriber init).
  vm_compute. lia.
Defined.

(** C5, the claim as stated fails: on a table of seven rows the stored
    session has seven questions, and on an empty table it has none and
    nothing is returned. *)
Lemma startQuiz_fewer_than_ten_counterexample :
  session_of Sample.subscriber
    (snd (startQuiz (Sample.sampleTable 7) Sample.subscriber init)) =
    Some (fresh (Sample.sampleTable 7) Sample.subscriber)
  /\ length (questions (fresh (Sample.sampleTable 7) Sample.subscriber)) = 7%nat
  /\ session_of Sample.subscriber (snd (startQuiz [] Sample.subscriber init)) =
     Some (fresh [] Sample.subscriber)
  /\ questions (fresh [] Sample.subscriber) = []
  /\ fst (startQuiz [] Sample.subscriber init) = None.
Proof. repeat split; vm_compute; reflexivity. Qed.

(** C5, amended.  For every subscriber and whatever was stored before,
    [startQuiz] stores a session that depends on the subscriber and the
    table only: index 0, score 0, not completed, holding the first
    [min(10, rows)] questions of the table; it returns the first of them if
    there is one.  On a table of at least 10 rows these are exactly 10
    questions and the first one is returned. *)
Theorem startQuiz_fresh_session
    (table : list Db.Row) (p : string) (st : State) :
  exists st' s,
    startQuiz table p st = (head (questions s), st')
    /\ session_of p st' = Some s
    /\ s = {| phoneNumber := p;
              currentQuestionIndex := 0;
              questions := getRandomQuestions table;
              currentScore := 0;
              isCompleted := false;
              aggregateScore := 0 |}
    /\ length (questions s) = Nat.min 10 (length table)
    /\ ((10 <= length table)%nat ->
        length (questions s) = 10%nat /\ is_Some (head (questions s))).
Proof.
  pose proof (getRandomQuestions_length table) as Hq.
  eexists _, (fresh table p).
  split; [|split; [|split; [reflexivity|split]]].
  - rewrite (proj1 (startQuiz_stores table p st)).
    now rewrite <- head_lookup.
  - apply startQuiz_stores.
  - exact Hq.
  - intros Hlen. cbn [fresh questions]. split; [lia|].
    rewrite head_lookup. apply lookup_lt_is_Some_2. lia.
Qed.

Lemma startQuiz_fresh_session_witness :
  length (questions (fresh (Sample.sampleTable 12) Sample.subscriber)) = 10%nat
  /\ is_Some (head (questions (fresh (Sample.sampleTable 12) Sample.subscriber))).
Proof.
  destruct (startQuiz_fresh_session (Sample.sampleTable 12) Sample.subscriber init)
    as (st' & s & _ & _ & -> & _ & Hten).
  apply Hten. vm_compute. lia.
Defined.

(** A second start discards the progress of the first. *)
Example startQuiz_overwrites :
  session_of Sample.subscriber
    (snd (startQuiz (Sample.sampleTable 10) Sample.subscriber
       (snd (processAnswer Sample.subscriber "a"
          (snd (startQuiz (Sample.sampleTable 10) Sample.subscriber init)))))) =
  Some (fresh (Sample.sampleTable 10) Sample.subscriber).
Proof. vm_compute. reflexivity. Qed.


(** *** Answers *)

(** [processAnswer] on a session that is stored, not completed, and whose
    current question exists and has an answer. *)
Lemma processAnswer_active p a st r s q expected :
  getSession p st = Some r ->
  heap st !! r = Some s ->
  isCompleted s = false ->
  questions s !! currentQuestionIndex s = Some q ->
  correctAnswer q = Some expected ->
  let correct := sameAnswer expected a in
  let s1 := set_currentQuestionIndex (currentQuestionIndex s + 1)
              (if correct then set_currentScore (currentScore s + 1) s else s) in
  processAnswer p a st =
  if (length (questions s) <=? currentQuestionIndex s + 1)%nat then
    let s2 := set_aggregateScore (aggregateScore s + currentScore s1)
                (set_isCompleted true s1) in
    (Return (Answered correct None true (currentScore s1) (aggregateScore s2)),
     clearSession p (write r s2 st))
  else
    (Return (Answered correct (questions s !! (currentQuestionIndex s + 1)%nat)
               false (currentScore s1) (aggregateScore s)),
     setSession p r (write r s1 st)).
Proof.
  intros Hget Hheap Hactive Hq He correct s1.
  unfold processAnswer. rewrite Hget, Hheap, Hactive, Hq, He.
  fold correct. subst s1. destruct correct; reflexivity.
Qed.

Lemma processAnswer_no_session p a st :
  getSession p st = None ->
  processAnswer p a st = (Return (NoSession noActiveSession), st).
Proof. intros H. unfold processAnswer. now rewrite H. Qed.

(** Case analysis along the early exits of [processAnswer]; [idle] closes
    the cases in which the state is left alone. *)
Ltac processAnswer_exits idle :=
  unfold processAnswer;
  match goal with
  | |- context [getSession ?p ?st] =>
      destruct (getSession p st) as [r|] eqn:Hget; [|idle];
      destruct (heap st !! r) as [s|] eqn:Hheap; [|idle];
      destruct (isCompleted s) eqn:Hactive; [idle|];
      destruct (questions s !! currentQuestionIndex s) as [q0|] eqn:Hcurrent;
        [|idle];
      destruct (correctAnswer q0) as [expected|] eqn:Hexpected; [|idle]
  end.

Lemma sameAnswer_spec expected a :
  sameAnswer expected a = true <->
  toUpperCase (trim expected) = toUpperCase (trim a).
Proof. unfold sameAnswer. apply String.eqb_eq. Qed.

(** The comparison ignores white space around either text and the case of
    ASCII letters. *)
Lemma sameAnswer_insensitive expected a ws1 ws2 :
  blank ws1 = true -> blank ws2 = true ->
  sameAnswer expected (ws1 +:+ a +:+ ws2) = sameAnswer expected a
  /\ sameAnswer (ws1 +:+ expected +:+ ws2) a = sameAnswer expected a
  /\ sameAnswer expected (toUpperCase a) = sameAnswer expected a
  /\ sameAnswer (toUpperCase expected) a = sameAnswer expected a.
Proof.
  intros H1 H2. unfold sameAnswer.
  rewrite !(JsFacts.trim_padding ws1 _ ws2 H1 H2), !JsFacts.trim_toUpperCase,
    !JsFacts.toUpperCase_idempotent.
  repeat split.
Qed.



Example padded_lowercase_matches : sameAnswer "A" " a " = true.
Proof. reflexivity. Qed.

Example other_letter_is_wrong : sameAnswer "A" "b" = false.
Proof. reflexivity. Qed.

(** A text that is no option letter is wrong and still moves on. *)
Example malformed_answer_advances :
  fst (processAnswer Sample.subscriber "what?"
         (snd (startQuiz (Sample.sampleTable 10) Sample.subscriber init))) =
  Return (Answered false
            (Some {| id := 2; text := Some "Question 2";
                     options := [Some "yes"; Some "no"; Some "both"; Some "neither"];
                     correctAnswer := Some "A" |})
            false 0 0).
Proof. vm_compute. reflexivity. Qed.


(** *** Whole quizzes *)

Lemma grade_no_answers qs : grade qs [] = 0%nat.
Proof. now destruct qs. Qed.

Lemma grade_at qs i q expected a answers :
  qs !! i = Some q -> correctAnswer q = Some expected ->
  grade (drop i qs) (a :: answers) =
  ((if sameAnswer expected a then 1 else 0) + grade (drop (S i) qs) answers)%nat.
Proof.
  intros Hq He. rewrite (drop_S _ _ _ Hq). cbn [grade]. now rewrite He.
Qed.

(** Answering every remaining question of an active session: all calls
    but the last report [done = false], the last one reports [done = true]
    with the score grown by the number of correct answers, and the key is
    gone afterwards. *)
Lemma submitAll_completes p : forall answers st r s,
  getSession p st = Some r ->
  heap st !! r = Some s ->
  isCompleted s = false ->
  Forall answerable (questions s) ->
  (currentQuestionIndex s + length answers = length (questions s))%nat ->
  answers <> [] ->
  exists results correct st',
    let final := (currentScore s
                  + grade (drop (currentQuestionIndex s) (questions s)) answers)%nat in
    submitAll p answers st =
      (results ++ [Return (Answered correct None true final
                             (aggregateScore s + final))], st')
    /\ Forall (fun x => doneOf x = Some false) results
    /\ length results = (length answers - 1)%nat
    /\ getSession p st' = None.
Proof.
  induction answers as [|a answers IH]; intros st r s Hget Hheap Hact Hqs Hlen Hne;
    [contradiction|].
  cbn [length] in Hlen.
  destruct (lookup_lt_is_Some_2 (questions s) (currentQuestionIndex s)
              ltac:(lia)) as [q Hq].
  destruct (proj1 (Forall_lookup _ _) Hqs _ _ Hq) as [expected He].
  cbn [submitAll].
  rewrite (processAnswer_active p a st r s q expected Hget Hheap Hact Hq He).
  cbv zeta. rewrite (grade_at _ _ _ _ a answers Hq He).
  destruct answers as [|a' answers].
  - replace (length (questions s) <=? currentQuestionIndex s + 1)%nat
      with true by (symmetry; apply Nat.leb_le; cbn in Hlen; lia).
    rewrite grade_no_answers. cbn [submitAll].
    destruct (sameAnswer expected a) eqn:Hcorrect.
    all: eexists [], _, _.
    all: split; [cbn; rewrite ?Nat.add_0_r; reflexivity|].
    all: split; [constructor|split; [reflexivity|]].
    all: unfold getSession; cbn; apply lookup_delete_eq.
  - replace (length (questions s) <=? currentQuestionIndex s + 1)%nat
      with false by (symmetry; apply Nat.leb_gt; cbn in Hlen; lia).
    set (s1 := set_currentQuestionIndex _ _).
    assert (Hs1 : questions s1 = questions s
                  /\ isCompleted s1 = false
                  /\ currentQuestionIndex s1 = S (currentQuestionIndex s)
                  /\ aggregateScore s1 = aggregateScore s
                  /\ currentScore s1 =
                     (currentScore s + if sameAnswer expected a then 1 else 0)%nat).
    { subst s1. destruct (sameAnswer expected a); cbn; repeat split;
        try assumption; lia. }
    destruct Hs1 as (Hq1 & Hc1 & Hi1 & Ha1 & Hsc1).
    destruct (IH (setSession p r (write r s1 st)) r s1) as
      (results & correct & st' & Hrun & Hres & Hlen' & Hgone).
    + unfold getSession. cbn. apply lookup_insert_eq.
    + cbn. apply lookup_insert_eq.
    + exact Hc1.
    + now rewrite Hq1.
    + rewrite Hq1, Hi1. cbn [length] in *. lia.
    + discriminate.
    + cbv zeta in Hrun. rewrite Hrun.
      eexists (_ :: results), correct, st'.
      split; [|split; [|split]].
      * cbn [app]. rewrite Hq1, Hi1, Ha1, Hsc1, !Nat.add_assoc.
        reflexivity.
      * constructor; [reflexivity|exact Hres].
      * cbn [length] in *. lia.
      * exact Hgone.
Qed.




Example tenth_answer_is_done :
  map doneOf
    (fst (submitAll Sample.subscriber (replicate 11 "A")
            (snd (startQuiz (Sample.sampleTable 10) Sample.subscriber init)))) =
  replicate 9 (Some false) ++ [Some true; None].
Proof. vm_compute. reflexivity. Qed.


(** *** The session invariant *)

Lemma invariant_fresh table p : table <> [] -> invariant (fresh table p).
Proof.
  intros Hne. unfold invariant. cbn [fresh currentQuestionIndex questions isCompleted].
  rewrite getRandomQuestions_length.
  destruct table; [contradiction|]. cbn [length]. split; [lia|].
  split; [discriminate|lia].
Qed.

(** One graded answer keeps the invariant, whether or not it was the last. *)
Lemma invariant_advance (s : QuizSession) (correct : bool) :
  invariant s -> isCompleted s = false ->
  let s1 := set_currentQuestionIndex (currentQuestionIndex s + 1)
              (if correct then set_currentScore (currentScore s + 1) s else s) in
  if (length (questions s) <=? currentQuestionIndex s + 1)%nat
  then invariant (set_aggregateScore (aggregateScore s + currentScore s1)
                    (set_isCompleted true s1))
  else invariant s1.
Proof.
  intros [Hle Hiff] Hact.
  assert (Hlt : (currentQuestionIndex s < length (questions s))%nat).
  { destruct (Nat.eq_dec (currentQuestionIndex s) (length (questions s))) as [E|E];
      [|lia]. apply Hiff in E. congruence. }
  destruct (Nat.leb_spec (length (questions s)) (currentQuestionIndex s + 1)).
  - destruct correct; split; cbn; try lia; split; intros; try reflexivity; lia.
  - destruct correct; split; cbn; try lia;
      (split; [rewrite Hact; discriminate|lia]).
Qed.

Lemma heapInvariant_insert st r s :
  heapInvariant st -> invariant s -> heapInvariant (write r s st).
Proof.
  intros Hst Hs r' s'. cbn. rewrite lookup_insert.
  case_decide; [intros Heq; simplify_eq; exact Hs|apply Hst].
Qed.

Lemma startQuiz_invariant table p st :
  table <> [] -> heapInvariant st -> heapInvariant (snd (startQuiz table p st)).
Proof.
  intros Hne Hst r s. cbn. rewrite lookup_insert.
  case_decide; [intros Heq; simplify_eq; now apply invariant_fresh|apply Hst].
Qed.

Lemma processAnswer_invariant p a st :
  heapInvariant st -> heapInvariant (snd (processAnswer p a st)).
Proof.
  intros Hst. processAnswer_exits ltac:(exact Hst).
  pose proof (invariant_advance s (sameAnswer expected a)
                (Hst r s Hheap) Hactive) as Hadv.
  cbv zeta in Hadv.
  destruct (sameAnswer expected a);
    cbn [set_currentScore set_currentQuestionIndex questions currentQuestionIndex] in *;
    destruct (length (questions s) <=? currentQuestionIndex s + 1)%nat;
    cbn [snd]; intros r' s'; cbn [clearSession setSession heap];
    apply (heapInvariant_insert st r _ Hst Hadv).
Qed.

Lemma submitAll_reachable ok p answers : forall st,
  reachable ok st -> reachable ok (snd (submitAll p answers st)).
Proof.
  induction answers as [|a answers IH]; intros st Hst; [exact Hst|].
  cbn [submitAll].
  pose proof (reachable_answer ok p a st Hst) as Hstep.
  destruct (processAnswer p a st) as [r st1]. cbn [snd] in Hstep.
  specialize (IH st1 Hstep).
  destruct (submitAll p answers st1) as [rs st2]. exact IH.
Qed.

(** C8, the claim as stated fails: a start that is served no question
    stores a session whose index equals the number of questions, zero, and
    which is not completed. *)
Lemma empty_quiz_breaks_invariant_counterexample :
  reachable (fun _ => True) (snd (startQuiz [] Sample.subscriber init))
  /\ session_of Sample.subscriber (snd (startQuiz [] Sample.subscriber init)) =
     Some (fresh [] Sample.subscriber)
  /\ currentQuestionIndex (fresh [] Sample.subscriber) =
     length (questions (fresh [] Sample.subscriber))
  /\ isCompleted (fresh [] Sample.subscriber) = false
  /\ ~ invariant (fresh [] Sample.subscriber).
Proof.
  split; [apply reachable_start; [exact I|apply reachable_init]|].
  repeat split; try reflexivity.
  intros [_ Hiff]. specialize (proj2 Hiff eq_refl). discriminate.
Qed.

(** C8, amended.  In every state reached by [startQuiz] and
    [processAnswer] with each start served at least one question, every
    session object built or updated so far, and so every stored session,
    satisfies [0 <= currentQuestionIndex <= questions.length] and is marked
    completed exactly when the index equals the number of questions. *)
Theorem reachable_sessions_keep_invariant (st : State) :
  reachable served st ->
  (forall r s, heap st !! r = Some s -> invariant s)
  /\ (forall p s, session_of p st = Some s -> invariant s).
Proof.
  intros Hreach.
  assert (Hinv : heapInvariant st).
  { induction Hreach as [|table p st Hok _ IH|p a st _ IH].
    - intros r s. cbn. now rewrite lookup_empty.
    - now apply startQuiz_invariant.
    - now apply processAnswer_invariant. }
  split; [exact Hinv|].
  intros p s. unfold session_of.
  destruct (getSession p st) as [r|]; [|discriminate]. cbn. apply Hinv.
Qed.

(** The state after a start and nine answers, and after the tenth. *)
Lemma reachable_sessions_keep_invariant_witness :
  (forall p s,
     session_of p
       (snd (submitAll Sample.subscriber (replicate 9 "A")
               (snd (startQuiz (Sample.sampleTable 10) Sample.subscriber init)))) =
     Some s -> invariant s)
  /\ (forall r s,
        heap (snd (submitAll Sample.subscriber (replicate 10 "A")
                     (snd (startQuiz (Sample.sampleTable 10)
                             Sample.subscriber init)))) !! r = Some s ->
        invariant s).
Proof.
  split.
  - apply (reachable_sessions_keep_invariant
             (snd (submitAll Sample.subscriber (replicate 9 "A")
                     (snd (startQuiz (Sample.sampleTable 10)
                             Sample.subscriber init))))).
    apply submitAll_reachable.
    apply reachable_start; [discriminate|apply reachable_init].
  - apply (reachable_sessions_keep_invariant
             (snd (submitAll Sample.subscriber (replicate 10 "A")
                     (snd (startQuiz (Sample.sampleTable 10)
                             Sample.subscriber init))))).
    apply submitAll_reachable.
    apply reachable_start; [discriminate|apply reachable_init].
Defined.


(** *** Other subscribers *)

Lemma separated_init : separated init.
Proof. split; intros *; cbn; rewrite lookup_empty; discriminate. Qed.

Lemma separated_startQuiz table p st :
  separated st -> separated (snd (startQuiz table p st)).
Proof.
  intros [Hlt Hinj]. split; cbn.
  - intros q r. rewrite lookup_insert. case_decide.
    + intros Heq. simplify_eq. lia.
    + intros Hq. specialize (Hlt _ _ Hq). lia.
  - intros q1 q2 r. rewrite !lookup_insert. repeat case_decide; intros H1 H2;
      simplify_eq; try reflexivity.
    + specialize (Hlt _ _ H2). lia.
    + specialize (Hlt _ _ H1). lia.
    + eapply Hinj; eassumption.
Qed.

Lemma separated_processAnswer p a st :
  separated st -> separated (snd (processAnswer p a st)).
Proof.
  intros Hsep. processAnswer_exits ltac:(exact Hsep).
  destruct Hsep as [Hlt Hinj].
  match goal with |- context [if ?b then _ else _] => destruct b end.
  - split; cbn.
    + intros q' r'. rewrite lookup_delete. case_decide; [discriminate|apply Hlt].
    + intros q1 q2 r'. rewrite !lookup_delete.
      repeat case_decide; try discriminate. apply Hinj.
  - unfold getSession in Hget.
    split; cbn; rewrite (insert_id _ _ _ Hget); assumption.
Qed.

Lemma reachable_separated ok st : reachable ok st -> separated st.
Proof.
  induction 1.
  - apply separated_init.
  - now apply separated_startQuiz.
  - now apply separated_processAnswer.
Qed.

(** A step that keeps the entry of [q] and the object behind it keeps the
    session of [q]. *)
Lemma session_of_frame q st st' :
  sessionStore st' !! q = sessionStore st !! q ->
  (forall r, sessionStore st !! q = Some r -> heap st' !! r = heap st !! r) ->
  session_of q st' = session_of q st.
Proof.
  intros Hstore Hheap. unfold session_of, getSession. rewrite Hstore.
  destruct (sessionStore st !! q) as [r|] eqn:Hq; [|reflexivity].
  cbn. now apply Hheap.
Qed.

Lemma startQuiz_frame table p q st :
  separated st -> p <> q ->
  getSession q (snd (startQuiz table p st)) = getSession q st
  /\ session_of q (snd (startQuiz table p st)) = session_of q st.
Proof.
  intros [Hlt _] Hne.
  assert (Hstore : sessionStore (snd (startQuiz table p st)) !! q
                   = sessionStore st !! q)
    by (cbn; now rewrite lookup_insert_ne).
  split; [exact Hstore|].
  apply session_of_frame; [exact Hstore|].
  intros r Hr. cbn. specialize (Hlt _ _ Hr).
  rewrite lookup_insert_ne; [reflexivity|lia].
Qed.

Lemma processAnswer_frame p a q st :
  separated st -> p <> q ->
  getSession q (snd (processAnswer p a st)) = getSession q st
  /\ session_of q (snd (processAnswer p a st)) = session_of q st.
Proof.
  intros [_ Hinj] Hne. processAnswer_exits ltac:(now split).
  assert (Hother : forall r', sessionStore st !! q = Some r' -> r <> r').
  { intros r' Hq ->. apply Hne. eapply Hinj; eassumption. }
  match goal with |- context [if ?b then _ else _] => destruct b end.
  - assert (Hstore : forall x,
              sessionStore (clearSession p (write r x st)) !! q
              = sessionStore st !! q)
      by (intros x; cbn; now rewrite lookup_delete_ne).
    split; [apply Hstore|].
    apply session_of_frame; [apply Hstore|].
    intros r' Hr'. cbn. rewrite lookup_insert_ne; [reflexivity|now apply Hother].
  - assert (Hstore : forall x,
              sessionStore (setSession p r (write r x st)) !! q
              = sessionStore st !! q)
      by (intros x; cbn; now rewrite lookup_insert_ne).
    split; [apply Hstore|].
    apply session_of_frame; [apply Hstore|].
    intros r' Hr'. cbn. rewrite lookup_insert_ne; [reflexivity|now apply Hother].
Qed.

Lemma processAnswer_error_unchanged p a st e :
  fst (processAnswer p a st) = Return (NoSession e) ->
  snd (processAnswer p a st) = st.
Proof.
  processAnswer_exits ltac:(reflexivity).
  match goal with |- context [if ?b then _ else _] => destruct b end;
    cbn; discriminate.
Qed.




(** An answer from somebody without a session changes nothing. *)
Example stray_answer_changes_nothing :
  processAnswer Sample.other "A"
    (snd (startQuiz (Sample.sampleTable 10) Sample.subscriber init)) =
  (Return (NoSession "No active quiz session. Send START to begin."),
   snd (startQuiz (Sample.sampleTable 10) Sample.subscriber init)).
Proof. reflexivity. Qed.

End EngineFacts.

(** ** The [/sms/incoming] handler *)

Module RouteFacts.
Import Js Session Quiz Sms Executor Route Engine Dialogue.

Section Accepting.
Variable env : Env.
Variable gateway : nat -> AxiosResult.
Variable random : nat -> Q.
Variable table : list Db.Row.

(** The gateway accepts every call. *)
Hypothesis accepts : forall i, exists d, gateway i = Resolved (Some d) /\ success d = true.
Hypothesis attempts : 1 <= maxAttempts (configOf env).

Lemma incoming_answer from m w :
  from <> "" -> isAnswerText m ->
  incoming env gateway random table (Some from) (Some m) w =
  match processAnswer from (trim m) (sessions w) with
  | (Return result, st') =>
      (Return Ok,
       {| sessions := st';
          net := {| calls := S (calls (net w)); draws := draws (net w);
                    trace := trace (net w) ++
                             [Post (smsRequest env from (answerMsg result))] |} |})
  | (Throw e, st') => (Throw e, {| sessions := st'; net := net w |})
  end.
Proof.
  intros Hfrom (Hm & Hd & Hw & Hmo).
  unfold incoming. cbn [truthy].
  apply String.eqb_neq in Hfrom, Hm, Hd, Hw, Hmo.
  rewrite Hfrom, Hm. cbn [negb orb default]. unfold Datatypes.id.
  rewrite Hd, Hw, Hmo.
  unfold bind, onSessions, onNet, ret.
  destruct (processAnswer from (trim m) (sessions w)) as [[result|e] st'];
    [|reflexivity].
  cbn [sessions net].
  destruct (accepts (calls (net w))) as (d & Hgw & _).
  now rewrite (DeliveryFacts.sendSms_resolved _ _ _ _ _ _ Hgw).
Qed.


Lemma incoming_start_daily from w first :
  from <> "" ->
  getRandomQuestions table !! 0%nat = Some first ->
  incoming env gateway random table (Some from) (Some "BTD") w =
  (Return Ok,
   {| sessions := snd (startQuiz table from (sessions w));
      net := {| calls := S (S (S (S (calls (net w)))));
                draws := draws (net w);
                trace := trace (net w) ++
                  [Post (smsRequest env from welcomeDaily);
                   Post (subscribe_request env from DAILY);
                   Post (charge_request env from DAILY);
                   Post (smsRequest env from
                           ("Quiz started!" +:+ LF +:+ "Q1: "
                            +:+ display (text first) +:+ optionLines first))] |} |}).
Proof.
  intros Hfrom Hfirst. apply String.eqb_neq in Hfrom.
  unfold incoming. cbn [truthy]. rewrite Hfrom.
  change ("BTD" =? "")%string with false.
  cbn [negb orb default]. unfold Datatypes.id.
  change (toUpperCase (trim "BTD") =? "BTD")%string with true. cbv iota.
  destruct (accepts (calls (net w))) as (d1 & Hg1 & _).
  destruct (accepts (S (calls (net w)))) as (d2 & Hg2 & Hs2).
  destruct (accepts (S (S (calls (net w))))) as (d3 & Hg3 & Hs3).
  destruct (accepts (S (S (S (calls (net w)))))) as (d4 & Hg4 & _).
  unfold startQuizCall, bind, onNet, onSessions, completed, ret.
  rewrite (DeliveryFacts.sendSms_resolved _ _ _ _ _ _ Hg1). cbn [sessions net].
  change (subscribeUser env gateway random from DAILY)
    with (deliver Subscribe env gateway random from DAILY).
  erewrite (DeliveryFacts.deliver_first_try Subscribe);
    [|exact attempts|cbn [calls]; exact Hg2|exact Hs2].
  cbn [sessions net].
  change (chargeUser env gateway random from DAILY)
    with (deliver Charge env gateway random from DAILY).
  erewrite (DeliveryFacts.deliver_first_try Charge);
    [|exact attempts|cbn [calls]; exact Hg3|exact Hs3].
  cbn [sessions net].
  rewrite (proj1 (EngineFacts.startQuiz_stores table from (sessions w))), Hfirst.
  cbn [startedMsg sessions net snd].
  erewrite DeliveryFacts.sendSms_resolved; [|cbn [calls]; exact Hg4].
  cbn [calls draws trace]. rewrite <- !app_assoc. reflexivity.
Qed.

(** A run of answer texts: the sessions evolve as under [submitAll], and
    each result that is returned is sent back as one SMS. *)
Lemma converse_answers from : forall messages w replies st',
  from <> "" ->
  Forall isAnswerText messages ->
  submitAll from (map trim messages) (sessions w) = (map Return replies, st') ->
  exists n',
    converse env gateway random table from messages w =
      (replicate (length messages) (Return Ok), {| sessions := st'; net := n' |})
    /\ trace n' =
       trace (net w) ++ map (fun r => Post (smsRequest env from (answerMsg r))) replies.
Proof.
  induction messages as [|m messages IH]; intros w replies st' Hfrom Hall Hrun.
  - cbn in Hrun. destruct replies; [|discriminate]. injection Hrun as <-.
    exists (net w). split; [now destruct w|]. cbn. now rewrite app_nil_r.
  - apply Forall_cons in Hall as [Hm Hall].
    cbn [map submitAll] in Hrun. cbn [converse length replicate].
    rewrite (incoming_answer from m w Hfrom Hm).
    destruct (processAnswer from (trim m) (sessions w)) as [c st1].
    destruct (submitAll from (map trim messages) st1) as [rs st2] eqn:Hrest.
    destruct replies as [|r replies]; [discriminate|].
    cbn [map] in Hrun. injection Hrun as -> -> ->.
    destruct (IH {| sessions := st1;
                    net := {| calls := S (calls (net w)); draws := draws (net w);
                              trace := trace (net w) ++
                                       [Post (smsRequest env from (answerMsg r))] |} |}
                 replies st' Hfrom Hall Hrest) as (n' & Hconv & Htrace).
    rewrite Hconv. exists n'. split; [reflexivity|].
    rewrite Htrace. cbn [net trace map]. now rewrite <- app_assoc.
Qed.

End Accepting.


Lemma answersCorrectly_grade qs : forall messages,
  Forall2 answersCorrectly qs messages ->
  grade qs (map trim messages) = length qs
  /\ Forall answerable qs
  /\ Forall isAnswerText messages.
Proof.
  induction qs as [|q qs IH]; intros messages Hall.
  - apply Forall2_nil_inv_l in Hall as ->. repeat split; constructor.
  - apply Forall2_cons_inv_l in Hall as (m & messages' & Hm & Hrest & ->).
    destruct Hm as (Htext & expected & He & Heq).
    destruct (IH _ Hrest) as (Hg & Ha & Ht).
    split; [|split].
    + cbn [map grade length]. rewrite He, Hg.
      unfold sameAnswer. rewrite JsFacts.trim_idempotent, Heq, String.eqb_refl.
      reflexivity.
    + constructor; [now exists expected|exact Ha].
    + now constructor.
Qed.

Lemma not_done_returned results :
  Forall (fun x => doneOf x = Some false) results ->
  exists replies, results = map Return replies.
Proof.
  induction 1 as [|x results Hx _ [replies ->]]; [now exists []|].
  destruct x as [r|e]; [|discriminate]. now exists (r :: replies).
Qed.

Lemma lastSms_snoc n env to message tr :
  trace n = tr ++ [Post (smsRequest env to message)] ->
  lastSms n = Some message.
Proof. intros H. unfold lastSms. now rewrite H, last_snoc. Qed.




(** When the charge is refused the handler stops there: no session is
    started and no reply is sent. *)
Example refused_charge_stops_the_start :
  incoming Sample.noEnv
    (fun i => if (i <? 2)%nat then Sample.alwaysAccepts i else Sample.alwaysStatus 402 i)
    Sample.half (Sample.sampleTable 10) (Some Sample.subscriber) (Some "BTD")
    Sample.freshWorld =
  (Throw (Error "Failed to charge user after 1 attempt: Request failed"),
   {| sessions := init;
      net := {| calls := 3; draws := 0;
                trace := [Post (smsRequest Sample.noEnv Sample.subscriber welcomeDaily);
                          Post (subscribe_request Sample.noEnv Sample.subscriber DAILY);
                          Post (charge_request Sample.noEnv Sample.subscriber DAILY)] |} |}).
Proof. vm_compute. reflexivity. Qed.

(** The same scenario evaluated: every text sent to the subscriber. *)
Example scenario_replies :
  omap (fun e => match e with
                 | Post {| payload := SmsPayload _ _ _ message |} => Some message
                 | _ => None
                 end)
    (trace (net (snd (converse Sample.noEnv Sample.alwaysAccepts Sample.half
                        (Sample.sampleTable 10) Sample.subscriber
                        ["BTD"; "a"; "A"; " a"; "A "; "a"; "a"; "a"; "a"; "a"; " A "; "a"]
                        Sample.freshWorld)))) =
  [welcomeDaily;
   "Quiz started!" +:+ LF +:+ "Q1: Question 1" +:+ LF +:+ "A) yes" +:+ LF
     +:+ "B) no" +:+ LF +:+ "C) both" +:+ LF +:+ "D) neither";
   "Correct!" +:+ LF +:+ "Q2: Question 2" +:+ LF +:+ "A) yes" +:+ LF
     +:+ "B) no" +:+ LF +:+ "C) both" +:+ LF +:+ "D) neither";
   "Correct!" +:+ LF +:+ "Q3: Question 3" +:+ LF +:+ "A) yes" +:+ LF
     +:+ "B) no" +:+ LF +:+ "C) both" +:+ LF +:+ "D) neither";
   "Correct!" +:+ LF +:+ "Q4: Question 4" +:+ LF +:+ "A) yes" +:+ LF
     +:+ "B) no" +:+ LF +:+ "C) both" +:+ LF +:+ "D) neither";
   "Correct!" +:+ LF +:+ "Q5: Question 5" +:+ LF +:+ "A) yes" +:+ LF
     +:+ "B) no" +:+ LF +:+ "C) both" +:+ LF +:+ "D) neither";
   "Correct!" +:+ LF +:+ "Q6: Question 6" +:+ LF +:+ "A) yes" +:+ LF
     +:+ "B) no" +:+ LF +:+ "C) both" +:+ LF +:+ "D) neither";
   "Correct!" +:+ LF +:+ "Q7: Question 7" +:+ LF +:+ "A) yes" +:+ LF
     +:+ "B) no" +:+ LF +:+ "C) both" +:+ LF +:+ "D) neither";
   "Correct!" +:+ LF +:+ "Q8: Question 8" +:+ LF +:+ "A) yes" +:+ LF
     +:+ "B) no" +:+ LF +:+ "C) both" +:+ LF +:+ "D) neither";
   "Correct!" +:+ LF +:+ "Q9: Question 9" +:+ LF +:+ "A) yes" +:+ LF
     +:+ "B) no" +:+ LF +:+ "C) both" +:+ LF +:+ "D) neither";
   "Correct!" +:+ LF +:+ "Q10: Question 10" +:+ LF +:+ "A) yes" +:+ LF
     +:+ "B) no" +:+ LF +:+ "C) both" +:+ LF +:+ "D) neither";
   "Quiz complete! Your score: 10/10. Aggregate: 10";
   "No active quiz session. Send START to begin."].
Proof. vm_compute. reflexivity. Qed.

End RouteFacts.


(** ** Gateway delivery, continued *)

Module DeliveryMore.
Import Js Sms Executor Observations.

Lemma classify_retryableReply k r :
  retryableReply r -> exists m, classify k r = RetryableFailure m.
Proof.
  destruct r as [[d|]|e]; cbn [retryableReply classify].
  - intros ->. eauto.
  - eauto.
  - intros ->. eauto.
Qed.


(** X1.  For [subscribeUser] and [chargeUser]: after [retries] replies
    that are rejections with a retryable status or responses without the
    success indicator, a response with [success === true] on an attempt
    within [maxAttempts] is returned as the result; the call has then made
    [retries + 1] requests and slept once after each of the first
    [retries]. *)
Theorem success_after_retries
    (a : Retrying) (env : Env) (gateway : nat -> AxiosResult)
    (random : nat -> Q) (msisdn : string) (plan : Plan) (net : Net)
    (retries : nat) (data : Body) :
  Z.of_nat retries + 1 <= maxAttempts (configOf env) ->
  (forall i, (i < retries)%nat -> retryableReply (gateway (calls net + i)%nat)) ->
  gateway (calls net + retries)%nat = Resolved (Some data) ->
  success data = true ->
  deliver a env gateway random msisdn plan net =
  (Return data,
   {| calls := calls net + retries + 1;
      draws := draws net + retries;
      trace := trace net
               ++ backoffs random (configOf env)
                    (request (kindOf a env msisdn plan)) 1 (draws net) retries
               ++ [Post (request (kindOf a env msisdn plan))] |}).
Proof.
  intros Hle Hfail Hlast Hok.
  rewrite DeliveryFacts.deliver_executes. unfold execute.
  assert (Hbudget : exists rest,
            Z.to_nat (maxAttempts (configOf env)) = (retries + S rest)%nat)
    by (exists (Z.to_nat (maxAttempts (configOf env)) - S retries)%nat; lia).
  destruct Hbudget as [rest ->].
  rewrite DeliveryFacts.attemptFrom_backoffs; [| |lia].
  - cbn [attemptFrom]. unfold post. cbn [calls draws trace].
    rewrite Hlast. cbn [classify]. rewrite Hok. cbn [surface].
    f_equal. f_equal; [lia|]. now rewrite <- app_assoc.
  - intros i Hi. now apply classify_retryableReply, Hfail.
Qed.

(** Two 503s, then an accepted request, with three attempts allowed. *)
Lemma success_after_retries_witness :
  subscribeUser
    {| PISIMOB_BASEURL := None; PISISID := None; PISIPID := None;
       PISI_RETRY_MAX_ATTEMPTS := Some 3;
       PISI_RETRY_BASE_DELAY_MS := None; PISI_RETRY_MAX_DELAY_MS := None |}
    (fun i => if (i <? 2)%nat then Sample.alwaysStatus 503 i else Sample.alwaysAccepts i)
    Sample.half Sample.subscriber DAILY Sample.freshNet =
  (Return Sample.accepted,
   {| calls := 3; draws := 2;
      trace := [Post (subscribe_request Sample.noEnv Sample.subscriber DAILY);
                Sleep 550;
                Post (subscribe_request Sample.noEnv Sample.subscriber DAILY);
                Sleep 1050;
                Post (subscribe_request Sample.noEnv Sample.subscriber DAILY)] |}).
Proof.
  apply (success_after_retries Subscribe
           {| PISIMOB_BASEURL := None; PISISID := None; PISIPID := None;
              PISI_RETRY_MAX_ATTEMPTS := Some 3;
              PISI_RETRY_BASE_DELAY_MS := None; PISI_RETRY_MAX_DELAY_MS := None |}
           (fun i => if (i <? 2)%nat then Sample.alwaysStatus 503 i
                     else Sample.alwaysAccepts i)
           Sample.half Sample.subscriber DAILY Sample.freshNet 2 Sample.accepted).
  - vm_compute. discriminate.
  - intros i Hi. cbn [calls Sample.freshNet plus].
    destruct i as [|[|i]]; [reflexivity|reflexivity|lia].
  - reflexivity.
  - reflexivity.
Defined.


(** Whatever the gateway does, a run with budget left ends right after a
    request, having slept once after every earlier request. *)
Lemma attemptFrom_shape gateway random c k : forall budget n net,
  (1 <= budget)%nat ->
  n + Z.of_nat budget = maxAttempts c + 1 ->
  exists j,
    (j < budget)%nat
    /\ snd (attemptFrom gateway random c k budget n net) =
       {| calls := calls net + j + 1;
          draws := draws net + j;
          trace := trace net ++ backoffs random c (request k) n (draws net) j
                   ++ [Post (request k)] |}
    /\ fst (attemptFrom gateway random c k budget n net) <> NotAttempted.
Proof.
  induction budget as [|budget IH]; intros n net Hpos Hsum; [lia|].
  cbn [attemptFrom]. unfold post, mathRandom.
  assert (Hstop : exists net0,
            net0 = {| calls := calls net + 0 + 1; draws := draws net + 0;
                      trace := trace net ++ backoffs random c (request k) n (draws net) 0
                               ++ [Post (request k)] |}
            /\ net0 = {| calls := S (calls net); draws := draws net;
                         trace := trace net ++ [Post (request k)] |}).
  { eexists. split; [reflexivity|]. cbn [backoffs app]. f_equal; lia. }
  destruct Hstop as (net0 & Hnet0 & Hsame).
  destruct (classify k (gateway (calls net))) as [d|m|m].
  - exists 0%nat. cbn [fst snd]. rewrite <- Hsame, Hnet0.
    split; [lia|]. split; [reflexivity|discriminate].
  - destruct (n <? maxAttempts c) eqn:Hlt.
    + apply Z.ltb_lt in Hlt.
      match goal with
      | |- context [attemptFrom _ _ _ _ budget (n + 1) ?x] =>
          destruct (IH (n + 1) x) as (j & Hj & Hsnd & Hfst); [lia|lia|]
      end.
      exists (S j). split; [lia|]. split; [|exact Hfst].
      rewrite Hsnd. unfold sleep. cbn [calls draws trace backoffs].
      f_equal; [lia|lia|]. now rewrite <- !app_assoc.
    + exists 0%nat. cbn [fst snd]. rewrite <- Hsame, Hnet0.
      split; [lia|]. split; [reflexivity|discriminate].
  - exists 0%nat. cbn [fst snd]. rewrite <- Hsame, Hnet0.
    split; [lia|]. split; [reflexivity|discriminate].
Qed.

Lemma deliver_shape a env gateway random msisdn plan net :
  1 <= maxAttempts (configOf env) ->
  exists j,
    Z.of_nat j + 1 <= maxAttempts (configOf env)
    /\ snd (deliver a env gateway random msisdn plan net) =
       {| calls := calls net + j + 1;
          draws := draws net + j;
          trace := trace net
                   ++ backoffs random (configOf env)
                        (request (kindOf a env msisdn plan)) 1 (draws net) j
                   ++ [Post (request (kindOf a env msisdn plan))] |}
    /\ fst (deliver a env gateway random msisdn plan net) <>
       Throw (Error (unexpected (kindOf a env msisdn plan))).
Proof.
  intros Hmax. rewrite DeliveryFacts.deliver_executes. unfold execute.
  destruct (attemptFrom_shape gateway random (configOf env)
              (kindOf a env msisdn plan)
              (Z.to_nat (maxAttempts (configOf env))) 1 net)
    as (j & Hj & Hsnd & Hfst); [lia|lia|].
  destruct (attemptFrom gateway random (configOf env) (kindOf a env msisdn plan)
              (Z.to_nat (maxAttempts (configOf env))) 1 net) as [o net'].
  cbn [fst snd] in *. subst net'. exists j.
  split; [lia|]. split; [reflexivity|].
  destruct o as [d n|n m|]; cbn [surface]; [discriminate| |congruence].
  destruct a; cbn; discriminate.
Qed.






(** X4.  For [subscribeUser] and [chargeUser]: when the reply to the last
    allowed attempt is a resolved response without [success === true] (the
    earlier ones having been retried), the error thrown inside [try] is
    caught by the function's own [catch], so what the caller gets is the
    "Failed to ... after N attempts: " text followed by the body's
    [message], else its [error], else the default wording. *)
Theorem missing_success_on_last_attempt
    (a : Retrying) (env : Env) (gateway : nat -> AxiosResult)
    (random : nat -> Q) (msisdn : string) (plan : Plan) (net : Net)
    (retries : nat) (data : option Body) :
  Z.of_nat retries + 1 = maxAttempts (configOf env) ->
  (forall i, (i < retries)%nat -> retryableReply (gateway (calls net + i)%nat)) ->
  gateway (calls net + retries)%nat = Resolved data ->
  match data with Some d => success d | None => false end = false ->
  deliver a env gateway random msisdn plan net =
  (Throw (Error (failureText (kindOf a env msisdn plan) (maxAttempts (configOf env))
                   (or_default (or_else (data ≫= message) (data ≫= error))
                      (nonSuccessDefault (kindOf a env msisdn plan))))),
   {| calls := calls net + retries + 1;
      draws := draws net + retries;
      trace := trace net
               ++ backoffs random (configOf env)
                    (request (kindOf a env msisdn plan)) 1 (draws net) retries
               ++ [Post (request (kindOf a env msisdn plan))] |}).
Proof.
  intros Hle Hfail Hlast Hno.
  rewrite DeliveryFacts.deliver_executes. unfold execute.
  replace (Z.to_nat (maxAttempts (configOf env))) with (retries + 1)%nat by lia.
  rewrite DeliveryFacts.attemptFrom_backoffs; [| |lia].
  - cbn [attemptFrom]. unfold post. cbn [calls draws trace].
    rewrite Hlast.
    assert (Hc : classify (kindOf a env msisdn plan) (Resolved data) =
                 RetryableFailure
                   (or_default (or_else (data ≫= message) (data ≫= error))
                      (nonSuccessDefault (kindOf a env msisdn plan)))).
    { destruct data as [d|]; cbn [classify]; [cbn in Hno; now rewrite Hno|].
      reflexivity. }
    rewrite Hc.
    replace (1 + Z.of_nat retries <? maxAttempts (configOf env)) with false
      by (symmetry; apply Z.ltb_ge; lia).
    cbn [surface]. rewrite <- Hle, (Z.add_comm 1).
    f_equal. f_equal; [lia|]. now rewrite <- app_assoc.
  - intros i Hi. now apply classify_retryableReply, Hfail.
Qed.

Lemma missing_success_on_last_attempt_witness :
  chargeUser Sample.noEnv Sample.alwaysDeclines Sample.half
    Sample.subscriber DAILY Sample.freshNet =
  (Throw (Error "Failed to charge user after 5 attempts: nope"),
   {| calls := 5; draws := 4;
      trace := backoffs Sample.half (configOf Sample.noEnv)
                 (charge_request Sample.noEnv Sample.subscriber DAILY) 1 0 4
               ++ [Post (charge_request Sample.noEnv Sample.subscriber DAILY)] |}).
Proof.
  apply (missing_success_on_last_attempt Charge Sample.noEnv Sample.alwaysDeclines
           Sample.half Sample.subscriber DAILY Sample.freshNet 4
           (Some Sample.declined)).
  - reflexivity.
  - intros i _. reflexivity.
  - reflexivity.
  - reflexivity.
Defined.


Lemma slept_app tr1 tr2 : slept (tr1 ++ tr2) = slept tr1 + slept tr2.
Proof.
  induction tr1 as [|[r|ms] tr1 IH]; cbn [app slept]; [reflexivity|exact IH|lia].
Qed.

Lemma delay_bounds c n draw :
  (0 <= draw)%Q -> (draw < 1)%Q -> 1 <= n ->
  0 <= baseDelay c -> 0 <= maxDelay c ->
  0 <= delay c n draw <= maxDelay c + 99.
Proof.
  intros H0 H1 Hn Hb Hm. unfold delay.
  pose proof (DeliveryFacts.jitter_bounds draw H0 H1).
  assert (0 <= baseDelay c * 2 ^ (n - 1)) by (apply Z.mul_nonneg_nonneg; lia).
  lia.
Qed.

Lemma backoffs_slept random c r j : forall n d,
  (forall i, (0 <= random i)%Q /\ (random i < 1)%Q) ->
  1 <= n -> 0 <= baseDelay c -> 0 <= maxDelay c ->
  0 <= slept (backoffs random c r n d j) <= Z.of_nat j * (maxDelay c + 99).
Proof.
  induction j as [|j IH]; intros n d Hr Hn Hb Hm; [cbn; lia|].
  cbn [backoffs slept].
  pose proof (delay_bounds c n (random d) (proj1 (Hr d)) (proj2 (Hr d)) Hn Hb Hm).
  specialize (IH (n + 1) (S d) Hr ltac:(lia) Hb Hm). lia.
Qed.




(** A delivered body is the reply to the last request of the run, and it
    carries [success = true]. *)
Lemma attemptFrom_delivered gateway random c k : forall budget n net d a net',
  attemptFrom gateway random c k budget n net = (Delivered d a, net') ->
  success d = true
  /\ (calls net < calls net')%nat
  /\ gateway (pred (calls net')) = Resolved (Some d).
Proof.
  induction budget as [|budget IH]; intros n net d a net';
    cbn [attemptFrom]; [discriminate|].
  unfold post, mathRandom.
  assert (Hretry : forall m,
    (if n <? maxAttempts c
     then attemptFrom gateway random c k budget (n + 1)
            (sleep (delay c n (random (draws net)))
               {| calls := S (calls net); draws := S (draws net);
                  trace := trace net ++ [Post (request k)] |})
     else (DeliveryFailed n m,
           {| calls := S (calls net); draws := draws net;
              trace := trace net ++ [Post (request k)] |}))
    = (Delivered d a, net') ->
    success d = true
    /\ (calls net < calls net')%nat
    /\ gateway (pred (calls net')) = Resolved (Some d)).
  { intros m. destruct (n <? maxAttempts c); [|discriminate].
    intros H. apply IH in H as (Hs & Hlt & Hg). cbn [sleep calls] in Hlt.
    repeat split; [exact Hs|lia|exact Hg]. }
  destruct (gateway (calls net)) as [[data|]|e] eqn:Hgw; cbn [classify].
  - destruct (success data) eqn:Hs; [|apply Hretry].
    intros [= <- _ <-]. cbn [calls pred]. repeat split; [exact Hs|lia|exact Hgw].
  - apply Hretry.
  - destruct (isRetryable (status e)); [apply Hretry|discriminate].
Qed.

Lemma deliver_returns_success a env gateway random msisdn plan net d net' :
  deliver a env gateway random msisdn plan net = (Return d, net') ->
  success d = true.
Proof.
  rewrite DeliveryFacts.deliver_executes. unfold execute.
  destruct (attemptFrom gateway random (configOf env) (kindOf a env msisdn plan)
              (Z.to_nat (maxAttempts (configOf env))) 1 net) as [o n1] eqn:Hrun.
  destruct o as [d0 a0|a0 m|]; cbn [surface]; try discriminate.
  intros [= <- <-]. eapply attemptFrom_delivered. exact Hrun.
Qed.

(** X6.  When [subscribeUser] or [chargeUser] returns, whatever the retry
    settings and the earlier replies, the body it returns is the gateway's
    reply to the last request it made, and that body has [success: true];
    at least one request was made. *)
Theorem returned_body_is_last_confirmed_reply
    (a : Retrying) (env : Env) (gateway : nat -> AxiosResult)
    (random : nat -> Q) (msisdn : string) (plan : Plan) (net net' : Net)
    (d : Body) :
  deliver a env gateway random msisdn plan net = (Return d, net') ->
  success d = true
  /\ (calls net < calls net')%nat
  /\ gateway (pred (calls net')) = Resolved (Some d).
Proof.
  rewrite DeliveryFacts.deliver_executes. unfold execute.
  destruct (attemptFrom gateway random (configOf env) (kindOf a env msisdn plan)
              (Z.to_nat (maxAttempts (configOf env))) 1 net) as [o n1] eqn:Hrun.
  destruct o as [d0 a0|a0 m|]; cbn [surface].
  - intros [= <- <-]. eapply attemptFrom_delivered. exact Hrun.
  - discriminate.
  - discriminate.
Qed.

Lemma returned_body_is_last_confirmed_reply_witness :
  success Sample.accepted = true
  /\ (calls Sample.freshNet < 3)%nat
  /\ (fun i => if (i <? 2)%nat then Sample.alwaysDeclines i
               else Sample.alwaysAccepts i) (pred 3)
     = Resolved (Some Sample.accepted).
Proof.
  apply (returned_body_is_last_confirmed_reply Charge Sample.noEnv
           (fun i => if (i <? 2)%nat then Sample.alwaysDeclines i
                     else Sample.alwaysAccepts i)
           Sample.half Sample.subscriber WEEKLY Sample.freshNet
           (snd (chargeUser Sample.noEnv
                   (fun i => if (i <? 2)%nat then Sample.alwaysDeclines i
                             else Sample.alwaysAccepts i)
                   Sample.half Sample.subscriber WEEKLY Sample.freshNet))).
  vm_compute. reflexivity.
Defined.

End DeliveryMore.


(** ** Session engine, continued *)

Module EngineMore.
Import Js Session Quiz Engine Observations.

Lemma grade_le_length qs : forall answers, (grade qs answers <= length qs)%nat.
Proof.
  induction qs as [|q qs IH]; intros [|a answers]; cbn [grade length]; try lia.
  specialize (IH answers).
  destruct (match correctAnswer q with Some e => sameAnswer e a | None => false end);
    lia.
Qed.

(** X7.  In a quiz answered to the end (every question carrying an answer
    token), the score reported with the last answer is the number of
    answers that matched the question they met, hence between 0 and the
    number of questions, and the aggregate reported with it is that same
    number: nothing is carried over from earlier quizzes of the
    subscriber. *)
Theorem final_score_counts_matches
    (table : list Db.Row) (p : string) (st : State) (answers : list string) :
  Forall answerable (getRandomQuestions table) ->
  answers <> [] ->
  length answers = length (getRandomQuestions table) ->
  exists results correct st',
    submitAll p answers (snd (startQuiz table p st)) =
      (results ++ [Return (Answered correct None true
                             (grade (getRandomQuestions table) answers)
                             (grade (getRandomQuestions table) answers))], st')
    /\ (grade (getRandomQuestions table) answers
        <= length (getRandomQuestions table))%nat.
Proof.
  intros Hqs Hne Hlen.
  destruct (EngineFacts.startQuiz_stores table p st) as (_ & Hget & Hsess).
  destruct (EngineFacts.submitAll_completes p answers (snd (startQuiz table p st))
              (next st) (fresh table p)) as
    (results & correct & st' & Hrun & _); try assumption.
  - unfold session_of in Hsess. now rewrite Hget in Hsess.
  - reflexivity.
  - cbv zeta in Hrun.
    cbn [fresh currentQuestionIndex questions currentScore aggregateScore] in Hrun.
    rewrite drop_0 in Hrun. cbn [plus] in Hrun.
    exists results, correct, st'. split; [exact Hrun|apply grade_le_length].
Qed.

(** Three right answers out of ten, after an earlier perfect quiz. *)
Lemma final_score_counts_matches_witness :
  exists results correct st',
    submitAll Sample.subscriber
      ["a"; "b"; "A"; "c"; "d"; " a "; "x"; "y"; "z"; "no"]
      (snd (startQuiz (Sample.sampleTable 10) Sample.subscriber
         (snd (submitAll Sample.subscriber (replicate 10 "A")
            (snd (startQuiz (Sample.sampleTable 10) Sample.subscriber init)))))) =
      (results ++ [Return (Answered correct None true 3 3)], st')
    /\ (3 <= 10)%nat.
Proof.
  apply (final_score_counts_matches (Sample.sampleTable 10) Sample.subscriber
           (snd (submitAll Sample.subscriber (replicate 10 "A")
              (snd (startQuiz (Sample.sampleTable 10) Sample.subscriber init))))
           ["a"; "b"; "A"; "c"; "d"; " a "; "x"; "y"; "z"; "no"]).
  - vm_compute. repeat constructor; eexists; reflexivity.
  - discriminate.
  - reflexivity.
Defined.


Lemma storeInvariant_init : storeInvariant init.
Proof.
  split; [apply EngineFacts.separated_init|].
  intros p r. cbn. rewrite lookup_empty. discriminate.
Qed.

Lemma settled_fresh table p : settled p (fresh table p).
Proof.
  unfold settled. cbn [fresh phoneNumber isCompleted aggregateScore currentScore
                       currentQuestionIndex questions].
  repeat split; try lia.
  destruct (getRandomQuestions table); [right; split; reflexivity|left; cbn; lia].
Qed.

Lemma storeInvariant_startQuiz table p st :
  storeInvariant st -> storeInvariant (snd (startQuiz table p st)).
Proof.
  intros [Hsep Hst]. split; [now apply EngineFacts.separated_startQuiz|].
  intros q r. cbn. rewrite lookup_insert. case_decide.
  - intros Heq. simplify_eq. rewrite lookup_insert_eq.
    eexists. split; [reflexivity|apply settled_fresh].
  - intros Hq. pose proof (proj1 Hsep _ _ Hq).
    rewrite lookup_insert_ne by lia. now apply Hst.
Qed.

Lemma storeInvariant_processAnswer p a st :
  storeInvariant st -> storeInvariant (snd (processAnswer p a st)).
Proof.
  intros [Hsep Hst].
  split; [now apply EngineFacts.separated_processAnswer|].
  EngineFacts.processAnswer_exits ltac:(exact Hst).
  unfold getSession in Hget.
  destruct (Hst _ _ Hget) as (s0 & Hs0 & Hname & _ & Hagg & Hscore & Hidx).
  assert (s0 = s) as -> by congruence.
  assert (Hother : forall q r', q <> p -> sessionStore st !! q = Some r' -> r <> r').
  { intros q r' Hne Hq ->. apply Hne. eapply (proj2 Hsep); eassumption. }
  destruct (Nat.leb_spec (length (questions s)) (currentQuestionIndex s + 1))
    as [Hdone|Hmore].
  - destruct (sameAnswer expected a);
      cbn [set_currentScore set_currentQuestionIndex questions currentQuestionIndex];
      (destruct (Nat.leb_spec (length (questions s)) (currentQuestionIndex s + 1));
       [|lia]);
      intros q r'; cbn; rewrite lookup_delete; (case_decide; [discriminate|]);
      intros Hq; (rewrite lookup_insert_ne by (eapply Hother; eauto));
      now apply Hst.
  - destruct (sameAnswer expected a);
      cbn [set_currentScore set_currentQuestionIndex questions currentQuestionIndex];
      (destruct (Nat.leb_spec (length (questions s)) (currentQuestionIndex s + 1));
       [lia|]);
      intros q r'; cbn; rewrite lookup_insert; (case_decide;
        [intros Heq; simplify_eq; rewrite lookup_insert_eq; eexists;
         split; [reflexivity|]; unfold settled; cbn; repeat split;
         try assumption; try reflexivity; try lia; left; lia
        |intros Hq; (rewrite lookup_insert_ne by (eapply Hother; eauto));
         now apply Hst]).
Qed.

Lemma reachable_storeInvariant ok st : reachable ok st -> storeInvariant st.
Proof.
  induction 1.
  - apply storeInvariant_init.
  - now apply storeInvariant_startQuiz.
  - now apply storeInvariant_processAnswer.
Qed.









(** What [processAnswer] does for [p] is decided by the entry of [p] and
    the object it leads to: either nothing is written, or one object is
    rewritten and the entry of [p] is set or removed; and it is the same in
    any state that agrees on those two. *)
Lemma processAnswer_local p a st st2 :
  sessionStore st2 !! p = sessionStore st !! p ->
  (forall r, sessionStore st !! p = Some r -> heap st2 !! r = heap st !! r) ->
  (processAnswer p a st = (fst (processAnswer p a st), st)
   /\ processAnswer p a st2 = (fst (processAnswer p a st), st2))
  \/ exists r s' (clear : bool),
       sessionStore st !! p = Some r
       /\ processAnswer p a st =
          (fst (processAnswer p a st),
           (if clear then clearSession p else setSession p r) (write r s' st))
       /\ processAnswer p a st2 =
          (fst (processAnswer p a st),
           (if clear then clearSession p else setSession p r) (write r s' st2)).
Proof.
  intros Hstore Hheap. unfold processAnswer, getSession. rewrite Hstore.
  destruct (sessionStore st !! p) as [r|] eqn:Hget; [|left; now split].
  rewrite (Hheap r eq_refl).
  destruct (heap st !! r) as [s|]; [|left; now split].
  destruct (isCompleted s); [left; now split|].
  destruct (questions s !! currentQuestionIndex s) as [q0|]; [|left; now split].
  destruct (correctAnswer q0) as [expected|]; [|left; now split].
  right.
  destruct (sameAnswer expected a);
    match goal with
    | |- context [if ?b then _ else _] => destruct b
    end;
    cbn [fst];
    [eexists r, _, true|eexists r, _, false|eexists r, _, true|eexists r, _, false];
    (split; [reflexivity|split; reflexivity]).
Qed.

(** Writes through the references of two different subscribers, and the
    updates of their entries, can be done in either order. *)
Lemma updates_commute p q rp rq sp sq (cp cq : bool) st :
  p <> q -> rp <> rq ->
  (if cp then clearSession p else setSession p rp)
    (write rp sp ((if cq then clearSession q else setSession q rq) (write rq sq st)))
  = (if cq then clearSession q else setSession q rq)
      (write rq sq ((if cp then clearSession p else setSession p rp) (write rp sp st))).
Proof.
  intros Hpq Hr.
  destruct cp, cq; unfold clearSession, setSession, write; cbn;
    f_equal; try (apply insert_insert_ne; congruence).
  - apply delete_delete.
  - first [apply delete_insert_ne|symmetry; apply delete_insert_ne]; congruence.
  - first [apply delete_insert_ne|symmetry; apply delete_insert_ne]; congruence.
Qed.



End EngineMore.


Module RouteMore.
Import Js Session Quiz Sms Executor Route Engine Dialogue Observations Webhook.

(** [sendSms] makes one request whatever the gateway answers. *)
Lemma sendSms_shape env gateway to message n :
  snd (sendSms env gateway to message n) =
  {| calls := S (calls n); draws := draws n;
     trace := trace n ++ [Post (smsRequest env to message)] |}.
Proof. unfold sendSms, post. now destruct (gateway (calls n)). Qed.

(** The reply that ends a handler run which got as far as the reply. *)
Lemma reply_step env gateway p (c : Handler string) w :
  let run := bind c (fun responseMsg =>
               await _ <~ onNet (sendSms env gateway p responseMsg) ;; ret Ok) w in
  match fst run with
  | Return (BadRequest _) => False
  | Return Ok =>
      exists msg, last (trace (net (snd run))) = Some (Post (smsRequest env p msg))
  | Throw _ => True
  end.
Proof.
  cbv zeta. unfold bind, onNet, ret.
  destruct (c w) as [[msg|e] w1]; [|exact I].
  pose proof (sendSms_shape env gateway p msg (net w1)) as Hshape.
  destruct (sendSms env gateway p msg (net w1)) as [[d|e] n1]; [|exact I].
  cbn [fst snd] in *. subst n1. exists msg. cbn [net trace].
  apply last_snoc.
Qed.


Lemma smsTo_smsRequest env p msg : smsTo p (Post (smsRequest env p msg)).
Proof. now split. Qed.

(** What a start flow without subscription does to the network. *)
Lemma plain_start_net env gateway table p welcome w :
  let run := bind
    (await _ <~ onNet (sendSms env gateway p welcome) ;;
     await firstQ <~ startQuizCall table p ;;
     completed (startedMsg firstQ))
    (fun responseMsg =>
       await _ <~ onNet (sendSms env gateway p responseMsg) ;; ret Ok) w in
  exists evs,
    net (snd run) =
      {| calls := calls (net w) + length evs; draws := draws (net w);
         trace := trace (net w) ++ evs |}
    /\ Forall (smsTo p) evs /\ (length evs <= 2)%nat.
Proof.
  cbv zeta. unfold bind, onNet, startQuizCall, onSessions, completed, ret.
  pose proof (sendSms_shape env gateway p welcome (net w)) as H1.
  destruct (sendSms env gateway p welcome (net w)) as [[d1|e1] n1];
    cbn [fst snd sessions net] in *; subst n1.
  - destruct (startQuiz table p (sessions w)) as [firstQ st1].
    cbn [sessions net].
    destruct (startedMsg firstQ) as [msg|e]; cbn [fst snd sessions net].
    + pose proof (sendSms_shape env gateway p msg
                    {| calls := S (calls (net w)); draws := draws (net w);
                       trace := trace (net w) ++ [Post (smsRequest env p welcome)] |})
        as H2.
      match type of H2 with
      | snd ?c = _ => destruct c as [[d2|e2] n2]
      end; cbn [fst snd sessions net calls draws trace] in *; subst n2;
        (exists [Post (smsRequest env p welcome); Post (smsRequest env p msg)];
         split; [rewrite <- app_assoc; cbn [length app]; f_equal; lia|];
         split; [repeat constructor|cbn; lia]).
    + exists [Post (smsRequest env p welcome)].
      split; [cbn [length]; f_equal; lia|].
      split; [repeat constructor|cbn; lia].
  - exists [Post (smsRequest env p welcome)].
    split; [cbn [length]; f_equal; lia|].
    split; [repeat constructor|cbn; lia].
Qed.



(** X14.  In the BTD flow a quiz session is created only after the
    welcome SMS was accepted and the gateway confirmed both the
    subscription and the charge with [success: true], in that order.  In
    every other run the handler throws and the sessions are exactly as they
    were. *)
Theorem daily_quiz_only_after_confirmed_charge
    (env : Env) (gateway : nat -> AxiosResult) (random : nat -> Q)
    (table : list Db.Row) (p m : string) (w : World) :
  p <> "" -> toUpperCase (trim m) = "BTD" ->
  ((exists e, fst (incoming env gateway random table (Some p) (Some m) w) = Throw e)
   /\ sessions (snd (incoming env gateway random table (Some p) (Some m) w))
      = sessions w)
  \/ (exists d1 n1 d2 n2 d3 n3,
        sendSms env gateway p welcomeDaily (net w) = (Return d1, n1)
        /\ subscribeUser env gateway random p DAILY n1 = (Return d2, n2)
        /\ success d2 = true
        /\ chargeUser env gateway random p DAILY n2 = (Return d3, n3)
        /\ success d3 = true
        /\ sessions (snd (incoming env gateway random table (Some p) (Some m) w))
           = snd (startQuiz table p (sessions w))).
Proof.
  intros Hp Hkey. unfold incoming. cbn [truthy].
  apply String.eqb_neq in Hp. rewrite Hp.
  assert (Hm : (m =? "")%string = false).
  { apply String.eqb_neq. intros ->. discriminate Hkey. }
  rewrite Hm. cbn [negb orb default]. unfold Datatypes.id.
  rewrite Hkey. change ("BTD" =? "BTD")%string with true. cbv iota.
  unfold bind, onNet, startQuizCall, onSessions, completed, ret.
  destruct (sendSms env gateway p welcomeDaily (net w)) as [[d1|e1] n1];
    cbn [fst snd sessions net]; [|left; eauto].
  destruct (subscribeUser env gateway random p DAILY n1) as [[d2|e2] n2] eqn:Hsub;
    cbn [fst snd sessions net]; [|left; eauto].
  destruct (chargeUser env gateway random p DAILY n2) as [[d3|e3] n3] eqn:Hchg;
    cbn [fst snd sessions net]; [|left; eauto].
  right. exists d1, n1, d2, n2, d3, n3.
  split; [reflexivity|]. split; [exact Hsub|].
  split; [exact (DeliveryMore.deliver_returns_success Subscribe env gateway random
                   p DAILY n1 d2 n2 Hsub)|].
  split; [exact Hchg|].
  split; [exact (DeliveryMore.deliver_returns_success Charge env gateway random
                   p DAILY n2 d3 n3 Hchg)|].
  destruct (startQuiz table p (sessions w)) as [firstQ st1].
  cbn [fst snd sessions net].
  destruct (startedMsg firstQ) as [msg|e]; cbn [fst snd sessions]; [|reflexivity].
  now destruct (sendSms env gateway p msg n3) as [[d4|e4] n4].
Qed.

Lemma daily_quiz_only_after_confirmed_charge_witness :
  ((exists e, fst (incoming Sample.noEnv (Sample.alwaysStatus 403) Sample.half
                     (Sample.sampleTable 10) (Some Sample.subscriber) (Some " btd")
                     Sample.freshWorld) = Throw e)
   /\ sessions (snd (incoming Sample.noEnv (Sample.alwaysStatus 403) Sample.half
                       (Sample.sampleTable 10) (Some Sample.subscriber) (Some " btd")
                       Sample.freshWorld))
      = sessions Sample.freshWorld)
  \/ (exists d1 n1 d2 n2 d3 n3,
        sendSms Sample.noEnv (Sample.alwaysStatus 403) Sample.subscriber
          welcomeDaily (net Sample.freshWorld) = (Return d1, n1)
        /\ subscribeUser Sample.noEnv (Sample.alwaysStatus 403) Sample.half
             Sample.subscriber DAILY n1 = (Return d2, n2)
        /\ success d2 = true
        /\ chargeUser Sample.noEnv (Sample.alwaysStatus 403) Sample.half
             Sample.subscriber DAILY n2 = (Return d3, n3)
        /\ success d3 = true
        /\ sessions (snd (incoming Sample.noEnv (Sample.alwaysStatus 403) Sample.half
                            (Sample.sampleTable 10) (Some Sample.subscriber)
                            (Some " btd") Sample.freshWorld))
           = snd (startQuiz (Sample.sampleTable 10) Sample.subscriber
                    (sessions Sample.freshWorld))).
Proof.
  apply (daily_quiz_only_after_confirmed_charge Sample.noEnv
           (Sample.alwaysStatus 403) Sample.half (Sample.sampleTable 10)
           Sample.subscriber " btd" Sample.freshWorld).
  - discriminate.
  - vm_compute. reflexivity.
Defined.

(** X15.  An answer is graded before the reply is sent, and the grading is
    not undone when the reply cannot be delivered: if the gateway rejects
    the reply SMS, the handler throws the gateway's message, yet the
    session has advanced (or was removed) exactly as [processAnswer] left
    it, and the one request made was the lost reply. *)
Theorem lost_reply_keeps_the_advance
    (env : Env) (gateway : nat -> AxiosResult) (random : nat -> Q)
    (table : list Db.Row) (p m : string) (w : World)
    (result : AnswerResult) (st' : State) (e : Caught) :
  p <> "" -> isAnswerText m ->
  processAnswer p (trim m) (sessions w) = (Return result, st') ->
  gateway (calls (net w)) = Rejected e ->
  incoming env gateway random table (Some p) (Some m) w =
  (Throw (Error (or_default (dataMessage e) (errorMessage e))),
   {| sessions := st';
      net := {| calls := S (calls (net w)); draws := draws (net w);
                trace := trace (net w) ++
                         [Post (smsRequest env p (answerMsg result))] |} |}).
Proof.
  intros Hp (Hm & Hd & Hw & Hmo) Hrun Hgw.
  unfold incoming. cbn [truthy].
  apply String.eqb_neq in Hp, Hm, Hd, Hw, Hmo.
  rewrite Hp, Hm. cbn [negb orb default]. unfold Datatypes.id.
  rewrite Hd, Hw, Hmo.
  unfold bind, onSessions, onNet, ret. rewrite Hrun. cbn [sessions net].
  unfold sendSms, post. rewrite Hgw. reflexivity.
Qed.

Lemma lost_reply_keeps_the_advance_witness :
  incoming Sample.noEnv (Sample.alwaysStatus 503) Sample.half
    (Sample.sampleTable 10) (Some Sample.other) (Some " a ")
    {| sessions := Sample.twoQuizzes; net := Sample.freshNet |} =
  (Throw (Error "Request failed"),
   {| sessions := snd (processAnswer Sample.other "a" Sample.twoQuizzes);
      net := {| calls := 1; draws := 0;
                trace := [Post (smsRequest Sample.noEnv Sample.other
                                  (answerMsg (Answered true
                                     (getRandomQuestions (Sample.sampleTable 10) !! 1%nat)
                                     false 1 0)))] |} |}).
Proof.
  apply (lost_reply_keeps_the_advance Sample.noEnv (Sample.alwaysStatus 503)
           Sample.half (Sample.sampleTable 10) Sample.other " a "
           {| sessions := Sample.twoQuizzes; net := Sample.freshNet |}
           (Answered true (getRandomQuestions (Sample.sampleTable 10) !! 1%nat)
              false 1 0)
           (snd (processAnswer Sample.other "a" Sample.twoQuizzes))
           {| status := Some 503; dataMessage := None;
              errorMessage := "Request failed" |}).
  - discriminate.
  - repeat split; vm_compute; discriminate.
  - vm_compute. reflexivity.
  - reflexivity.
Defined.

(** The sessions after a handler run, whatever the gateway did: untouched,
    or as [startQuiz] or [processAnswer] for the sender left them. *)
Lemma incoming_sessions env gateway random table from message w :
  sessions (snd (incoming env gateway random table from message w)) = sessions w
  \/ (exists p,
        from = Some p
        /\ sessions (snd (incoming env gateway random table from message w))
           = snd (startQuiz table p (sessions w)))
  \/ (exists p a,
        from = Some p
        /\ sessions (snd (incoming env gateway random table from message w))
           = snd (processAnswer p a (sessions w))).
Proof.
  unfold incoming.
  destruct (negb (truthy from) || negb (truthy message)) eqn:Hmissing;
    [now left|].
  destruct from as [p|]; [|discriminate].
  destruct message as [m|]; [|cbn in Hmissing; now rewrite orb_true_r in Hmissing].
  cbn [default]. unfold Datatypes.id.
  assert (Hplain : forall welcome,
    let run := bind
      (await _ <~ onNet (sendSms env gateway p welcome) ;;
       await firstQ <~ startQuizCall table p ;;
       completed (startedMsg firstQ))
      (fun responseMsg =>
         await _ <~ onNet (sendSms env gateway p responseMsg) ;; ret Ok) w in
    sessions (snd run) = sessions w
    \/ sessions (snd run) = snd (startQuiz table p (sessions w))).
  { intros welcome. cbv zeta.
    unfold bind, onNet, startQuizCall, onSessions, completed, ret.
    destruct (sendSms env gateway p welcome (net w)) as [[d1|e1] n1];
      cbn [fst snd sessions net]; [|now left].
    destruct (startQuiz table p (sessions w)) as [firstQ st1].
    cbn [fst snd sessions net].
    destruct (startedMsg firstQ) as [msg|e]; cbn [fst snd sessions]; [|now right].
    destruct (sendSms env gateway p msg n1) as [[d4|e4] n4]; now right. }
  destruct (toUpperCase (trim m) =? "BTD")%string; cbv iota.
  - unfold bind, onNet, startQuizCall, onSessions, completed, ret.
    destruct (sendSms env gateway p welcomeDaily (net w)) as [[d1|e1] n1];
      cbn [fst snd sessions net]; [|now left].
    destruct (subscribeUser env gateway random p DAILY n1) as [[d2|e2] n2];
      cbn [fst snd sessions net]; [|now left].
    destruct (chargeUser env gateway random p DAILY n2) as [[d3|e3] n3];
      cbn [fst snd sessions net]; [|now left].
    right; left. exists p. split; [reflexivity|].
    destruct (startQuiz table p (sessions w)) as [firstQ st1].
    cbn [fst snd sessions net].
    destruct (startedMsg firstQ) as [msg|e]; cbn [fst snd sessions]; [|reflexivity].
    now destruct (sendSms env gateway p msg n3) as [[d4|e4] n4].
  - destruct (toUpperCase (trim m) =? "BTW")%string;
      [destruct (Hplain welcomeWeekly) as [H|H]; [now left|right; left; eauto]|].
    destruct (toUpperCase (trim m) =? "BTM")%string;
      [destruct (Hplain welcomeMonthly) as [H|H]; [now left|right; left; eauto]|].
    cbv iota.
    right; right. exists p, (trim m). split; [reflexivity|].
    unfold bind, onSessions, onNet, ret.
    destruct (processAnswer p (trim m) (sessions w))
      as [[result|e] st']; cbn [fst snd sessions net]; [|reflexivity].
    now destruct (sendSms env gateway p (answerMsg result) (net w)) as [[d|e] n1].
Qed.





(** [processAnswer] reads the answer only trimmed and upper-cased. *)
Lemma processAnswer_reads_token p a a' st :
  toUpperCase (trim a) = toUpperCase (trim a') ->
  processAnswer p a st = processAnswer p a' st.
Proof.
  intros Heq. unfold processAnswer, sameAnswer. now rewrite Heq.
Qed.

(** X18.  The webhook reads the message only trimmed and upper-cased: two
    non-empty texts that agree up to surrounding white space and letter
    case are the same keyword or the same answer, and lead to the same
    reply, the same requests and the same sessions. *)
Theorem message_case_and_padding_ignored
    (env : Env) (gateway : nat -> AxiosResult) (random : nat -> Q)
    (table : list Db.Row) (from : option string) (m m' : string) (w : World) :
  m <> "" -> m' <> "" ->
  toUpperCase (trim m) = toUpperCase (trim m') ->
  incoming env gateway random table from (Some m) w
  = incoming env gateway random table from (Some m') w.
Proof.
  intros Hm Hm' Heq. apply String.eqb_neq in Hm, Hm'.
  unfold incoming. cbn [truthy]. rewrite Hm, Hm'.
  cbn [default negb]. unfold Datatypes.id. rewrite Heq.
  destruct (negb (truthy from) || false); [reflexivity|].
  destruct (toUpperCase (trim m') =? "BTD")%string; [reflexivity|].
  destruct (toUpperCase (trim m') =? "BTW")%string; [reflexivity|].
  destruct (toUpperCase (trim m') =? "BTM")%string; [reflexivity|].
  unfold bind at 1 3. unfold bind at 1 3. unfold onSessions.
  rewrite (processAnswer_reads_token (default "" from) (trim m) (trim m'));
    [reflexivity|].
  now rewrite !JsFacts.trim_idempotent.
Qed.

Lemma message_case_and_padding_ignored_witness :
  incoming Sample.noEnv Sample.alwaysAccepts Sample.half (Sample.sampleTable 10)
    (Some Sample.subscriber) (Some "  btd ") Sample.freshWorld
  = incoming Sample.noEnv Sample.alwaysAccepts Sample.half (Sample.sampleTable 10)
      (Some Sample.subscriber) (Some "BTD") Sample.freshWorld.
Proof.
  apply (message_case_and_padding_ignored Sample.noEnv Sample.alwaysAccepts
           Sample.half (Sample.sampleTable 10) (Some Sample.subscriber)
           "  btd " "BTD" Sample.freshWorld).
  - discriminate.
  - discriminate.
  - vm_compute. reflexivity.
Defined.

End RouteMore.
